(** * Checkout orchestration and receipt generation of the store back end

    A shallow embedding of [OrderController] (parseOrderJSON, createOrder,
    generateReceipt, checkout) and of [ProductController.get], together with
    the stores they talk to.

    Conventions of the embedding:
    - a JavaScript [number] that holds a price or a quantity is a [Z];
    - an optional or nullable field is an [option]; JavaScript truthiness of
      such a field ([!x], [x || y]) is written out in [truthy] and [js_or];
    - [async] code is a state-and-exception monad [M] over the record [World.t]
      of all stores; the only real concurrency, the [Promise.all] over the
      stock updates, takes the completion order as an explicit [Schedule];
    - [new Date().toISOString()] is the parameter [now]. *)

From stdpp Require Import gmap strings list pretty.
From Stdlib Require Import ZArith Permutation.

Open Scope Z_scope.
Open Scope string_scope.

(** ** JavaScript values *)

(** [!!s] for a [string | undefined | null]: the empty string is falsy. *)
Definition truthy (s : option string) : bool :=
  match s with
  | Some s => negb (String.eqb s "")
  | None => false
  end.

(** [a || b] on optional strings. *)
Definition js_or (a b : option string) : option string :=
  if truthy a then a else b.

(** [hay.includes(needle)]. *)
Definition includes (hay needle : string) : bool :=
  match String.index 0 needle hay with
  | Some _ => true
  | None => false
  end.

(** What a [throw] carries: [new Error(msg)], or the engine's [TypeError]
    when a property of [null] is read. *)
Inductive Exn : Type :=
  | Error (msg : string)
  | TypeError.

Inductive Result (A : Type) : Type :=
  | Ok (a : A)
  | Throw (e : Exn).
Arguments Ok {A} a.
Arguments Throw {A} e.

(** ** Data model *)

(** Modelled from the spec: the [Product] class is not part of the sources
    at hand; the fields are those [ProductController.create] hands to the
    repository, plus the identifier. *)
Module Product.
Record t : Type := mk {
  id : string;
  name : string;
  image : string;
  shortDescription : string;
  longDescription : string;
  price : Z;
  category : string
}.
End Product.

(** A line of a cart or of an order: [{ product, quantity }]. *)
Module Item.
Record t : Type := mk {
  product : Product.t;
  quantity : Z
}.
End Item.

(** A line of a persisted order: [{ productId, quantity }]. *)
Module ItemJSON.
Record t : Type := mk {
  productId : string;
  quantity : Z
}.
End ItemJSON.

(** [Partial<JointPayment>], models/payment.ts: every field may be absent. *)
Module JointPayment.
Record t : Type := mk {
  id : option string;
  type : option string;
  amount : option Z;
  date : option string;
  status : option string;
  cardNumber : option string;
  expiryDate : option string;
  paymentGateway : option string
}.
End JointPayment.

(** The [Payment] class of models/payment.ts with the attributes of its
    card subclass flattened in, as [JointPayment] does. *)
Module Payment.
Record t : Type := mk {
  id : option string;
  type : string;
  amount : Z;
  date : option string;
  status : option string;
  cardNumber : option string;
  expiryDate : option string;
  paymentGateway : option string
}.
End Payment.

(** Modelled from the spec: [Partial<JointShipment>] is not part of the
    sources at hand; checkout reads [type] and [address], the data model
    of the spec adds the fee. *)
Module JointShipment.
Record t : Type := mk {
  id : option string;
  type : option string;
  fee : option Z;
  address : option string
}.
End JointShipment.

(** Modelled from the spec: the [Shipment] class, "identifier (null until
    stored), type, fee, type-specific attributes (e.g., address)". *)
Module Shipment.
Record t : Type := mk {
  id : option string;
  type : string;
  fee : Z;
  address : option string
}.
End Shipment.

(** Modelled from the spec: the account record, which "must expose
    address, cart reference, id". *)
Module User.
Record t : Type := mk {
  id : string;
  address : option string;
  cart : option string
}.
End User.

(** Modelled from the spec: the [Cart] class, "owning user identifier,
    sequence of {product, quantity}"; [getSubtotalPrice] is the sum of
    price times quantity over the lines. *)
Module Cart.
Record t : Type := mk {
  id : string;
  userId : string;
  items : list Item.t
}.

Definition getSubtotalPrice (c : t) : Z :=
  foldr (fun it acc => Product.price (Item.product it) * Item.quantity it + acc) 0 (items c).
End Cart.

(** Modelled from the spec: the [Order] class (models/order is not part of
    the sources at hand). The constructor arguments are those of
    [parseOrderJSON]; [addItem] appends a line, [getTotalPrice] is the sum
    of price times quantity, [verify] holds only for a non-empty item list
    with a payment and a shipment set. *)
Module Order.
Record t : Type := mk {
  userId : string;
  id : option string;
  orderDate : string;
  items : list Item.t;
  payment : option Payment.t;
  shipment : option Shipment.t;
  status : string;
  cancellation : bool
}.

(** [new Order(userId)]: everything else at its default. *)
Definition new (userId now : string) : t :=
  mk userId None now [] None None "Pending" false.

Definition addItem (o : t) (p : Product.t) (q : Z) : t :=
  mk (userId o) (id o) (orderDate o) (items o ++ [Item.mk p q])
     (payment o) (shipment o) (status o) (cancellation o).

Definition setShipment (o : t) (s : Shipment.t) : t :=
  mk (userId o) (id o) (orderDate o) (items o)
     (payment o) (Some s) (status o) (cancellation o).

Definition setPayment (o : t) (p : Payment.t) : t :=
  mk (userId o) (id o) (orderDate o) (items o)
     (Some p) (shipment o) (status o) (cancellation o).

Definition getTotalPrice (o : t) : Z :=
  foldr (fun it acc => Product.price (Item.product it) * Item.quantity it + acc) 0 (items o).

Definition verify (o : t) : bool :=
  negb (Nat.eqb (length (items o)) 0)
  && bool_decide (is_Some (payment o))
  && bool_decide (is_Some (shipment o)).
End Order.

(** The persisted order, [OrderJSON]: the fields [parseOrderJSON] reads. *)
Module OrderJSON.
Record t : Type := mk {
  userId : string;
  id : string;
  orderDate : string;
  items : list ItemJSON.t;
  paymentId : option string;
  shipmentId : option string;
  status : string;
  cancellation : bool
}.
End OrderJSON.

(** A line of a receipt: [{ product, quantity, price }]. *)
Module ReceiptItem.
Record t : Type := mk {
  product : Product.t;
  quantity : Z;
  price : Z
}.
End ReceiptItem.

(** The [Receipt] built by [generateReceipt], argument by argument. *)
Module Receipt.
Record t : Type := mk {
  orderId : option string;
  user : User.t;
  items : list ReceiptItem.t;
  total : Z;
  payment : option Payment.t;
  shipment : option Shipment.t
}.
End Receipt.

(** ** The stores *)

(** One write to a store, as the trace of a run records it. *)
Inductive Write : Type :=
  | WShipment (id : string)
  | WPayment (id : string)
  | WOrder (id : string)
  | WStock (productId : string) (quantity : Z)
  | WCart (cartId : option string).

(** Everything outside the controller: the session, the repositories and
    the catalogue. [nextId] feeds the identifiers the stores hand out and
    [writes] is the trace of store writes so far, oldest first. *)
Module World.
Record t : Type := mk {
  loggedInUser : option string;
  accounts : gmap string User.t;
  carts : list Cart.t;
  products : gmap string Product.t;
  catalogue : gmap string Z;
  shipments : gmap string Shipment.t;
  payments : gmap string Payment.t;
  orders : gmap string OrderJSON.t;
  nextId : nat;
  writes : list Write
}.
End World.

(** ** The monad of [async] code: state over the stores, plus exceptions *)

Definition M (A : Type) : Type := World.t -> Result A * World.t.

Definition ret {A} (a : A) : M A := fun w => (Ok a, w).

Definition throw {A} (e : Exn) : M A := fun w => (Throw e, w).

Definition bind {A B} (c : M A) (k : A -> M B) : M B :=
  fun w =>
    match c w with
    | (Ok a, w') => k a w'
    | (Throw e, w') => (Throw e, w')
    end.

Definition gets {A} (f : World.t -> A) : M A := fun w => (Ok (f w), w).

Definition modify (f : World.t -> World.t) : M unit := fun w => (Ok tt, f w).

Notation "'let*' x ':=' c 'in' k" := (bind c (fun x => k))
  (at level 10, x name, c at level 100, k at level 200).

Notation "c ';;' k" := (bind c (fun _ => k))
  (at level 100, k at level 200, right associativity).

(** ** Field updates of the world *)

Definition log (e : Write) (w : World.t) : World.t :=
  World.mk (World.loggedInUser w) (World.accounts w) (World.carts w)
    (World.products w) (World.catalogue w) (World.shipments w)
    (World.payments w) (World.orders w) (World.nextId w)
    (World.writes w ++ [e]).

Definition bump (w : World.t) : World.t :=
  World.mk (World.loggedInUser w) (World.accounts w) (World.carts w)
    (World.products w) (World.catalogue w) (World.shipments w)
    (World.payments w) (World.orders w) (S (World.nextId w))
    (World.writes w).

Definition set_carts (c : list Cart.t) (w : World.t) : World.t :=
  World.mk (World.loggedInUser w) (World.accounts w) c
    (World.products w) (World.catalogue w) (World.shipments w)
    (World.payments w) (World.orders w) (World.nextId w)
    (World.writes w).

Definition set_catalogue (c : gmap string Z) (w : World.t) : World.t :=
  World.mk (World.loggedInUser w) (World.accounts w) (World.carts w)
    (World.products w) c (World.shipments w)
    (World.payments w) (World.orders w) (World.nextId w)
    (World.writes w).

Definition set_shipments (s : gmap string Shipment.t) (w : World.t) : World.t :=
  World.mk (World.loggedInUser w) (World.accounts w) (World.carts w)
    (World.products w) (World.catalogue w) s
    (World.payments w) (World.orders w) (World.nextId w)
    (World.writes w).

Definition set_payments (p : gmap string Payment.t) (w : World.t) : World.t :=
  World.mk (World.loggedInUser w) (World.accounts w) (World.carts w)
    (World.products w) (World.catalogue w) (World.shipments w)
    p (World.orders w) (World.nextId w)
    (World.writes w).

Definition set_orders (o : gmap string OrderJSON.t) (w : World.t) : World.t :=
  World.mk (World.loggedInUser w) (World.accounts w) (World.carts w)
    (World.products w) (World.catalogue w) (World.shipments w)
    (World.payments w) o (World.nextId w)
    (World.writes w).

(** ** Collaborators *)

(** Modelled from the spec: the identifier a store assigns on persistence;
    here the decimal form of the world's counter. *)
Definition genId (w : World.t) : string := pretty (World.nextId w).

(** Modelled from the spec: "Account access: getAccount(userId) -> User";
    [generateReceipt] tests the result against null, so the lookup may
    find nothing. *)
Module AccountController.
Definition getAccount (userId : string) : M (option User.t) :=
  gets (fun w => World.accounts w !! userId).
End AccountController.

(** Modelled from the spec: "Cart access: getCart(userId) -> Cart;
    empty(cartId)". The cart of a user is the first cart the user owns;
    emptying drops the lines of the cart with the given identifier. *)
Module CartController.
Definition getCart (userId : string) : M (option Cart.t) :=
  gets (fun w => List.find (fun c => String.eqb (Cart.userId c) userId) (World.carts w)).

Definition clear (cartId : option string) (c : Cart.t) : Cart.t :=
  if bool_decide (cartId = Some (Cart.id c))
  then Cart.mk (Cart.id c) (Cart.userId c) []
  else c.

Definition emptyCart (cartId : option string) : M unit :=
  modify (fun w => log (WCart cartId) (set_carts (map (clear cartId) (World.carts w)) w)).
End CartController.

(** Modelled from the spec: "Catalogue: getSnapshot() -> per-product
    quantity; updateQuantity(product, newQuantity)". A snapshot is a value:
    later updates of the store do not show in it. A product the catalogue
    does not list has quantity 0. *)
Module Catalogue.
Definition getItemQuantity (catalogue : gmap string Z) (p : Product.t) : Z :=
  default 0 (catalogue !! Product.id p).
End Catalogue.

Module CatalogueController.
Definition getCatalogue : M (gmap string Z) := gets World.catalogue.

Definition updateProductQuantity (p : Product.t) (q : Z) : M unit :=
  modify (fun w =>
    log (WStock (Product.id p) q)
        (set_catalogue (<[Product.id p := q]> (World.catalogue w)) w)).
End CatalogueController.

(** Modelled from the spec: "Shipment store: getById, store(unsavedShipment)
    -> storedShipment with id". *)
Module ShipmentController.
Definition storeShipment (s : Shipment.t) : M Shipment.t :=
  fun w =>
    let id := genId w in
    let stored := Shipment.mk (Some id) (Shipment.type s) (Shipment.fee s) (Shipment.address s) in
    (Ok stored, log (WShipment id) (bump (set_shipments (<[id := stored]> (World.shipments w)) w))).

Definition getShipmentById (id : option string) : M (option Shipment.t) :=
  gets (fun w => match id with Some i => World.shipments w !! i | None => None end).
End ShipmentController.

(** Modelled from the spec: "Payment store: getById, store(unsavedPayment)
    -> storedPayment with id", and the builder of §4.3, which copies the
    attributes it is given into an unsaved payment. *)
Module PaymentController.
Definition createPaymentObject (d : JointPayment.t) : Payment.t :=
  Payment.mk None (default "" (JointPayment.type d)) (default 0 (JointPayment.amount d))
    (JointPayment.date d) (JointPayment.status d) (JointPayment.cardNumber d)
    (JointPayment.expiryDate d) (JointPayment.paymentGateway d).

Definition storePayment (p : Payment.t) : M Payment.t :=
  fun w =>
    let id := genId w in
    let stored := Payment.mk (Some id) (Payment.type p) (Payment.amount p) (Payment.date p)
                    (Payment.status p) (Payment.cardNumber p) (Payment.expiryDate p)
                    (Payment.paymentGateway p) in
    (Ok stored, log (WPayment id) (bump (set_payments (<[id := stored]> (World.payments w)) w))).

Definition getPaymentById (id : option string) : M (option Payment.t) :=
  gets (fun w => match id with Some i => World.payments w !! i | None => None end).
End PaymentController.

(** Modelled from the spec: "Order store: create(userId, items, paymentId,
    shipmentId, status, cancellation) -> OrderRecord". *)
Module OrderRepository.
Definition create (now userId : string) (items : list ItemJSON.t)
    (paymentId shipmentId : option string) (status : string) (cancellation : bool)
    : M OrderJSON.t :=
  fun w =>
    let id := genId w in
    let record := OrderJSON.mk userId id now items paymentId shipmentId status cancellation in
    (Ok record, log (WOrder id) (bump (set_orders (<[id := record]> (World.orders w)) w))).

Definition getById (id : string) : M (option OrderJSON.t) :=
  gets (fun w => World.orders w !! id).

(** The records of one user, in the order in which the store lists them. *)
Definition getByUserId (userId : string) : M (list OrderJSON.t) :=
  gets (fun w =>
    List.filter (fun record => String.eqb (OrderJSON.userId record) userId)
      (map snd (map_to_list (World.orders w)))).

(** Removing a record is a write to the order store under its identifier. *)
Definition delete (id : string) : M unit :=
  modify (fun w => log (WOrder id) (set_orders (base.delete id (World.orders w)) w)).
End OrderRepository.

(** Modelled from the spec: "Product lookup: get(id) -> Product | absent". *)
Module ProductRepository.
Definition getById (id : string) : M (option Product.t) :=
  gets (fun w => World.products w !! id).
End ProductRepository.

(** [ProductController.get]. *)
Module ProductController.
Definition get (id : string) : M (option Product.t) :=
  ProductRepository.getById id.
End ProductController.

(** ** OrderController *)

(** The order in which the promises of the [Promise.all] over the stock
    updates complete: any rearrangement of the calls as they were issued. *)
Definition Schedule : Type := list (Product.t * Z) -> list (Product.t * Z).

Definition fair (sched : Schedule) : Prop :=
  forall calls, Permutation calls (sched calls).

(** Issue order: every call completes before the next one starts. *)
Definition in_order : Schedule := fun calls => calls.

(** The last call issued completes first. *)
Definition reversed : Schedule := fun calls => rev calls.

Module OrderController.
Section Controller.

(** [new Date().toISOString()]. *)
Variable now : string.

(** [ShipmentController.createShipmentObject], which is not part of the
    sources at hand: it decides, among others, the fee of a shipment. *)
Variable createShipmentObject : JointShipment.t -> Shipment.t.

(** The [Promise.all] of parseOrderJSON: one product lookup per line;
    the lookups only read, and a line that does not resolve rejects the
    whole. Of several such lines the first in the list is reported. *)
Fixpoint hydrate (items : list ItemJSON.t) : M (list Item.t) :=
  match items with
  | [] => ret []
  | item :: rest =>
      let* product := ProductController.get (ItemJSON.productId item) in
      match product with
      | None => throw (Error ("Product not found: " ++ ItemJSON.productId item))
      | Some product =>
          let* rest := hydrate rest in
          ret (Item.mk product (ItemJSON.quantity item) :: rest)
      end
  end.

Definition parseOrderJSON (orderjson : OrderJSON.t) : M Order.t :=
  let* items := hydrate (OrderJSON.items orderjson) in
  let* payment := PaymentController.getPaymentById (OrderJSON.paymentId orderjson) in
  let* shipment := ShipmentController.getShipmentById (OrderJSON.shipmentId orderjson) in
  ret (Order.mk
         (OrderJSON.userId orderjson)
         (Some (OrderJSON.id orderjson))
         (OrderJSON.orderDate orderjson)
         items
         payment
         shipment
         (OrderJSON.status orderjson)
         (OrderJSON.cancellation orderjson)).

Definition createOrder (userId : string) (products : list Item.t)
    (payment : Payment.t) (shipment : Shipment.t) : M Order.t :=
  let items := map (fun item => ItemJSON.mk (Product.id (Item.product item)) (Item.quantity item))
                   products in
  let* order := OrderRepository.create now userId items
                  (Payment.id payment) (Shipment.id shipment) "Pending" false in
  parseOrderJSON order.

Definition getOrderById (orderId : string) : M (option Order.t) :=
  let* orderjson := OrderRepository.getById orderId in
  match orderjson with
  | None => ret None
  | Some orderjson => let* order := parseOrderJSON orderjson in ret (Some order)
  end.

(** The [Promise.all] of getOrdersByUser: one hydration per record; the
    hydrations only read, and one that throws rejects the whole. *)
Fixpoint parseAll (orders : list OrderJSON.t) : M (list Order.t) :=
  match orders with
  | [] => ret []
  | order :: rest =>
      let* order := parseOrderJSON order in
      let* rest := parseAll rest in
      ret (order :: rest)
  end.

Definition getOrdersByUser (userId : string) : M (list Order.t) :=
  let* orders := OrderRepository.getByUserId userId in
  parseAll orders.

Definition deleteOrder (orderId : string) : M unit :=
  OrderRepository.delete orderId.

Definition generateReceipt (order : Order.t) : M Receipt.t :=
  if negb (Order.verify order) then throw (Error "Order is not valid") else
  let* user := AccountController.getAccount (Order.userId order) in
  match user with
  | None => throw (Error ("User not found: " ++ Order.userId order))
  | Some user =>
      ret (Receipt.mk
             (Order.id order)
             user
             (map (fun item =>
                     ReceiptItem.mk (Item.product item) (Item.quantity item)
                       (Product.price (Item.product item) * Item.quantity item))
                  (Order.items order))
             (Order.getTotalPrice order)
             (Order.payment order)
             (Order.shipment order))
  end.

(** The stock updates in the order in which they complete. *)
Fixpoint updateAll (calls : list (Product.t * Z)) : M unit :=
  match calls with
  | [] => ret tt
  | (product, quantity) :: rest =>
      CatalogueController.updateProductQuantity product quantity ;;
      updateAll rest
  end.

(** The cart lines are copied into the order one by one. *)
Definition addItems (order : Order.t) (items : list Item.t) : Order.t :=
  fold_left (fun o item => Order.addItem o (Item.product item) (Item.quantity item)) items order.

(** [{ ...shipmentDetails, address: shipmentDetails.address || user.address! }]
    for a delivery. *)
Definition withAddress (shipmentDetails : JointShipment.t) (user : User.t) : JointShipment.t :=
  if bool_decide (JointShipment.type shipmentDetails = Some "delivery")
  then JointShipment.mk (JointShipment.id shipmentDetails) (JointShipment.type shipmentDetails)
         (JointShipment.fee shipmentDetails)
         (js_or (JointShipment.address shipmentDetails) (User.address user))
  else shipmentDetails.

(** [paymentDetails.amount = ...]. *)
Definition withAmount (paymentDetails : JointPayment.t) (amount : Z) : JointPayment.t :=
  JointPayment.mk (JointPayment.id paymentDetails) (JointPayment.type paymentDetails)
    (Some amount) (JointPayment.date paymentDetails) (JointPayment.status paymentDetails)
    (JointPayment.cardNumber paymentDetails) (JointPayment.expiryDate paymentDetails)
    (JointPayment.paymentGateway paymentDetails).

(** The defaults of a card payment. *)
Definition withCardDefaults (paymentDetails : JointPayment.t) : JointPayment.t :=
  if bool_decide (JointPayment.type paymentDetails = Some "card")
  then JointPayment.mk (JointPayment.id paymentDetails) (JointPayment.type paymentDetails)
         (JointPayment.amount paymentDetails) (JointPayment.date paymentDetails)
         (JointPayment.status paymentDetails)
         (JointPayment.cardNumber paymentDetails)
         (js_or (JointPayment.expiryDate paymentDetails) (Some now))
         (js_or (JointPayment.paymentGateway paymentDetails) (Some "Tyro"))
  else paymentDetails.

(** The availability test of one cart line against the snapshot. *)
Definition short (catalogue : gmap string Z) (item : Item.t) : bool :=
  (Catalogue.getItemQuantity catalogue (Item.product item) <? Item.quantity item)%Z.

Definition checkout (sched : Schedule)
    (paymentDetails : JointPayment.t) (shipmentDetails : JointShipment.t) : M Order.t :=
  let* loggedInUser := gets World.loggedInUser in
  if negb (truthy loggedInUser) then throw (Error "User not logged in") else
  if negb (truthy (JointPayment.type paymentDetails))
     || negb (truthy (JointShipment.type shipmentDetails))
  then throw (Error "Payment and shipment type must be provided") else
  let* user := AccountController.getAccount (default "" loggedInUser) in
  match user with
  | None => throw TypeError
  | Some user =>
  let* cart := CartController.getCart (User.id user) in
  match cart with
  | None => throw TypeError
  | Some cart =>
  if Nat.eqb (length (Cart.items cart)) 0 then throw (Error "Cart is empty") else
  let* catalogue := CatalogueController.getCatalogue in
  if existsb (short catalogue) (Cart.items cart)
  then throw (Error "One or more products are not available") else
  let order := Order.new (User.id user) now in
  let order := addItems order (Cart.items cart) in
  let shipmentDetails := withAddress shipmentDetails user in
  let shipment := createShipmentObject shipmentDetails in
  let order := Order.setShipment order shipment in
  let paymentDetails := withAmount paymentDetails (Cart.getSubtotalPrice cart + Shipment.fee shipment) in
  let paymentDetails := withCardDefaults paymentDetails in
  let payment := PaymentController.createPaymentObject paymentDetails in
  let order := Order.setPayment order payment in
  (* order.shipment! and order.payment! are the objects just attached *)
  let* storedShipment := ShipmentController.storeShipment shipment in
  let* storedPayment := PaymentController.storePayment payment in
  let* createdOrder := createOrder (Order.userId order) (Order.items order)
                         storedPayment storedShipment in
  updateAll (sched (map (fun item =>
               (Item.product item,
                Catalogue.getItemQuantity catalogue (Item.product item) - Item.quantity item))
             (Order.items order))) ;;
  CartController.emptyCart (User.cart user) ;;
  ret createdOrder
  end
  end.

End Controller.
End OrderController.

(** ** The error taxonomy of the spec, as the controller throws it *)

Definition EmptyCart : Exn := Error "Cart is empty".
Definition InsufficientStock : Exn := Error "One or more products are not available".
Definition ProductNotFound (productId : string) : Exn := Error ("Product not found: " ++ productId).
Definition InvalidOrder : Exn := Error "Order is not valid".
Definition UserNotFound (userId : string) : Exn := Error ("User not found: " ++ userId).

(** An error names a product when its message contains the identifier or
    the name of the product. *)
Definition names (e : Exn) (p : Product.t) : bool :=
  match e with
  | Error msg => includes msg (Product.id p) || includes msg (Product.name p)
  | TypeError => false
  end.

(** ** What a run of checkout starts from *)

(** The first two checks pass and the session's user and cart resolve. *)
Record ready (w : World.t) (paymentDetails : JointPayment.t) (shipmentDetails : JointShipment.t)
    (user : User.t) (cart : Cart.t) : Prop := {
  ready_session : truthy (World.loggedInUser w) = true;
  ready_payment_type : truthy (JointPayment.type paymentDetails) = true;
  ready_shipment_type : truthy (JointShipment.type shipmentDetails) = true;
  ready_user : World.accounts w !! default "" (World.loggedInUser w) = Some user;
  ready_cart :
    List.find (fun c => String.eqb (Cart.userId c) (User.id user)) (World.carts w) = Some cart
}.

(** The persisted form of a line. *)
Definition toJSON (item : Item.t) : ItemJSON.t :=
  ItemJSON.mk (Product.id (Item.product item)) (Item.quantity item).

(** The stock update checkout issues for a line, given the snapshot. *)
Definition decrement (catalogue : gmap string Z) (item : Item.t) : Product.t * Z :=
  (Item.product item,
   (Catalogue.getItemQuantity catalogue (Item.product item) - Item.quantity item)%Z).

(** The catalogue after a sequence of completed updates. *)
Definition stockAfter (calls : list (Product.t * Z)) (catalogue : gmap string Z) : gmap string Z :=
  fold_left (fun c call => <[Product.id (fst call) := snd call]> c) calls catalogue.

Definition stockWrite (call : Product.t * Z) : Write :=
  WStock (Product.id (fst call)) (snd call).

(** ** The shape of a run of checkout *)

Section Shapes.

Variable now : string.
Variable createShipmentObject : JointShipment.t -> Shipment.t.

(** The unsaved shipment and payment checkout builds. *)
Definition shipmentOf (shipmentDetails : JointShipment.t) (user : User.t) : Shipment.t :=
  createShipmentObject (OrderController.withAddress shipmentDetails user).

Definition paymentOf (paymentDetails : JointPayment.t) (shipmentDetails : JointShipment.t)
    (user : User.t) (cart : Cart.t) : Payment.t :=
  PaymentController.createPaymentObject
    (OrderController.withCardDefaults now
       (OrderController.withAmount paymentDetails
          (Cart.getSubtotalPrice cart + Shipment.fee (shipmentOf shipmentDetails user))%Z)).

(** The identifiers the three stores hand out, in the order of the calls. *)
Definition shipmentId (w : World.t) : string := pretty (World.nextId w).
Definition paymentId (w : World.t) : string := pretty (S (World.nextId w)).
Definition orderId (w : World.t) : string := pretty (S (S (World.nextId w))).

Definition storedShipment (shipmentDetails : JointShipment.t) (user : User.t) (w : World.t)
    : Shipment.t :=
  let s := shipmentOf shipmentDetails user in
  Shipment.mk (Some (shipmentId w)) (Shipment.type s) (Shipment.fee s) (Shipment.address s).

Definition storedPayment (paymentDetails : JointPayment.t) (shipmentDetails : JointShipment.t)
    (user : User.t) (cart : Cart.t) (w : World.t) : Payment.t :=
  let p := paymentOf paymentDetails shipmentDetails user cart in
  Payment.mk (Some (paymentId w)) (Payment.type p) (Payment.amount p) (Payment.date p)
    (Payment.status p) (Payment.cardNumber p) (Payment.expiryDate p) (Payment.paymentGateway p).

Definition storedOrder (user : User.t) (cart : Cart.t) (w : World.t) : OrderJSON.t :=
  OrderJSON.mk (User.id user) (orderId w) now (map toJSON (Cart.items cart))
    (Some (paymentId w)) (Some (shipmentId w)) "Pending" false.

(** The world once shipment, payment and order are persisted. *)
Definition persisted (paymentDetails : JointPayment.t) (shipmentDetails : JointShipment.t)
    (user : User.t) (cart : Cart.t) (w : World.t) : World.t :=
  World.mk (World.loggedInUser w) (World.accounts w) (World.carts w)
    (World.products w) (World.catalogue w)
    (<[shipmentId w := storedShipment shipmentDetails user w]> (World.shipments w))
    (<[paymentId w := storedPayment paymentDetails shipmentDetails user cart w]> (World.payments w))
    (<[orderId w := storedOrder user cart w]> (World.orders w))
    (S (S (S (World.nextId w))))
    (World.writes w ++ [WShipment (shipmentId w); WPayment (paymentId w); WOrder (orderId w)])%list.

(** The world at the end of a checkout whose stock updates completed in
    the order [calls]. *)
Definition completed (calls : list (Product.t * Z))
    (paymentDetails : JointPayment.t) (shipmentDetails : JointShipment.t)
    (user : User.t) (cart : Cart.t) (w : World.t) : World.t :=
  World.mk (World.loggedInUser w) (World.accounts w)
    (map (CartController.clear (User.cart user)) (World.carts w))
    (World.products w) (stockAfter calls (World.catalogue w))
    (<[shipmentId w := storedShipment shipmentDetails user w]> (World.shipments w))
    (<[paymentId w := storedPayment paymentDetails shipmentDetails user cart w]> (World.payments w))
    (<[orderId w := storedOrder user cart w]> (World.orders w))
    (S (S (S (World.nextId w))))
    (World.writes w
       ++ [WShipment (shipmentId w); WPayment (paymentId w); WOrder (orderId w)]
       ++ map stockWrite calls
       ++ [WCart (User.cart user)])%list.

(** The claim C1 as the spec words it, at one input: the failure is
    InsufficientStock exactly when a line is short, it names every short
    product, and it leaves the world as it was. *)
Definition insufficient_stock_named (sched : Schedule) (w : World.t)
    (paymentDetails : JointPayment.t) (shipmentDetails : JointShipment.t)
    (cart : Cart.t) : Prop :=
  let run := OrderController.checkout now createShipmentObject sched
               paymentDetails shipmentDetails w in
  (fst run = Throw InsufficientStock <->
   exists item, In item (Cart.items cart) /\
     (Catalogue.getItemQuantity (World.catalogue w) (Item.product item) < Item.quantity item)%Z)
  /\ (forall e, fst run = Throw e ->
      forall item, In item (Cart.items cart) ->
        (Catalogue.getItemQuantity (World.catalogue w) (Item.product item) < Item.quantity item)%Z ->
        names e (Item.product item) = true)
  /\ (fst run = Throw InsufficientStock -> snd run = w).

(** The claim C3 as the spec words it, at one input: after a successful
    checkout every line finds its product's quantity lowered by the
    quantity of that line. *)
Definition every_line_decremented (sched : Schedule) (w : World.t)
    (paymentDetails : JointPayment.t) (shipmentDetails : JointShipment.t)
    (cart : Cart.t) : Prop :=
  forall o w',
    OrderController.checkout now createShipmentObject sched paymentDetails shipmentDetails w
      = (Ok o, w') ->
    forall item, In item (Cart.items cart) ->
      Catalogue.getItemQuantity (World.catalogue w') (Item.product item)
      = (Catalogue.getItemQuantity (World.catalogue w) (Item.product item)
         - Item.quantity item)%Z.

End Shapes.

(** What the lines of a cart ask of one product, all together. *)
Fixpoint requested (productId : string) (items : list Item.t) : Z :=
  match items with
  | [] => 0
  | item :: rest =>
      ((if String.eqb (Product.id (Item.product item)) productId then Item.quantity item else 0)
       + requested productId rest)%Z
  end.

(** The receipt line of an order line. *)
Definition receiptLine (item : Item.t) : ReceiptItem.t :=
  ReceiptItem.mk (Item.product item) (Item.quantity item)
    (Product.price (Item.product item) * Item.quantity item)%Z.

(** ** Scenarios *)

Module Scenario.

Definition now : string := "2024-05-01T09:30:00.000Z".

Definition anvil : Product.t := Product.mk "prod-A" "Anvil" "" "" "" 10 "tools".
Definition bolt : Product.t := Product.mk "prod-B" "Bolt" "" "" "" 5 "tools".

Definition user : User.t := User.mk "u1" (Some "1 Main St") (Some "cart-1").

(** A builder that charges a flat fee of 3. *)
Definition createShipmentObject (d : JointShipment.t) : Shipment.t :=
  Shipment.mk None (default "" (JointShipment.type d)) 3 (JointShipment.address d).

(** A card payment with a caller-supplied amount that is to be ignored. *)
Definition card : JointPayment.t :=
  JointPayment.mk None (Some "card") (Some 999) None None (Some "4111") None None.

Definition delivery : JointShipment.t :=
  JointShipment.mk None (Some "delivery") None None.

Definition world (lines : list Item.t) (stock : gmap string Z) : World.t :=
  World.mk (Some "u1") {["u1" := user]} [Cart.mk "cart-1" "u1" lines]
    (<["prod-A" := anvil]> {["prod-B" := bolt]}) stock ∅ ∅ ∅ 0 [].

Definition cart (lines : list Item.t) : Cart.t := Cart.mk "cart-1" "u1" lines.

(** The two scenarios of the spec: two anvils and a bolt, with stock
    5 and 5, and with stock 1 and 5. *)
Definition lines : list Item.t := [Item.mk anvil 2; Item.mk bolt 1].
Definition stocked : World.t := world lines (<["prod-A" := 5]> {["prod-B" := 5]}).
Definition scarce : World.t := world lines (<["prod-A" := 1]> {["prod-B" := 5]}).

(** An empty cart. *)
Definition idle : World.t := world [] (<["prod-A" := 5]> {["prod-B" := 5]}).

(** The same product on two lines: 3 and 4 anvils against a stock of 5. *)
Definition twice : list Item.t := [Item.mk anvil 3; Item.mk anvil 4].
Definition doubled : World.t := world twice (<["prod-A" := 5]> {["prod-B" := 5]}).

(** A cart line whose product has left the product store. *)
Definition ghost : Product.t := Product.mk "prod-G" "Ghost" "" "" "" 7 "tools".
Definition haunted : World.t :=
  world [Item.mk anvil 2; Item.mk ghost 1] (<["prod-A" := 5]> {["prod-G" := 5]}).

End Scenario.

(** The order a run returned. *)
Definition returned (run : Result Order.t * World.t) : Order.t :=
  match fst run with
  | Ok o => o
  | Throw _ => Order.new "" ""
  end.

(** Checkout at a scenario, with the card payment and the delivery. *)
Definition run (sched : Schedule) (w : World.t) : Result Order.t * World.t :=
  OrderController.checkout Scenario.now Scenario.createShipmentObject sched
    Scenario.card Scenario.delivery w.

(** After the stocked checkout the price of an anvil goes from 10 to 12. *)
Definition repriced : World.t :=
  let w := snd (run in_order Scenario.stocked) in
  World.mk (World.loggedInUser w) (World.accounts w) (World.carts w)
    (<["prod-A" := Product.mk "prod-A" "Anvil" "" "" "" 12 "tools"]> (World.products w))
    (World.catalogue w) (World.shipments w) (World.payments w) (World.orders w)
    (World.nextId w) (World.writes w).

(** The order of the stocked checkout, read back after the price change,
    and its receipt. *)
Definition rehydrated : Order.t :=
  match fst (OrderController.getOrderById "2" repriced) with
  | Ok (Some o) => o
  | _ => Order.new "" ""
  end.

Definition issued : Receipt.t :=
  match fst (OrderController.generateReceipt rehydrated repriced) with
  | Ok receipt => receipt
  | Throw _ => Receipt.mk None (User.mk "" None None) [] 0 None None
  end.

(** ** Further scenarios *)

(** The sum of the prices of the lines of a receipt. *)
Definition receiptSum (lines : list ReceiptItem.t) : Z :=
  foldr (fun line acc => (ReceiptItem.price line + acc)%Z) 0%Z lines.

(** A shipment as its store returns it: the identifier filled in. *)
Definition stamped (id : string) (s : Shipment.t) : Shipment.t :=
  Shipment.mk (Some id) (Shipment.type s) (Shipment.fee s) (Shipment.address s).

(** The world after the stocked checkout. *)
Definition placed : World.t := snd (run in_order Scenario.stocked).

(** Nobody is logged in. *)
Definition anonymous : World.t :=
  World.mk None (World.accounts Scenario.stocked) (World.carts Scenario.stocked)
    (World.products Scenario.stocked) (World.catalogue Scenario.stocked) ∅ ∅ ∅ 0 [].

(** The session names a user the account store does not hold. *)
Definition dangling : World.t :=
  World.mk (Some "u9") (World.accounts Scenario.stocked) (World.carts Scenario.stocked)
    (World.products Scenario.stocked) (World.catalogue Scenario.stocked) ∅ ∅ ∅ 0 [].

(** Payment details without a type. *)
Definition untyped : JointPayment.t :=
  JointPayment.mk None None (Some 999%Z) None None None None None.

(** A delivery with an address of its own, and a pickup. *)
Definition addressed : JointShipment.t :=
  JointShipment.mk None (Some "delivery") None (Some "7 Side Rd").

Definition pickup : JointShipment.t :=
  JointShipment.mk None (Some "pickup") None None.

(** The orders of the user after the stocked checkout. *)
Definition listed : list Order.t :=
  match fst (OrderController.getOrdersByUser "u1" placed) with
  | Ok orders => orders
  | Throw _ => []
  end.

(** After the stocked checkout the anvil leaves the product store. *)
Definition orphaned : World.t :=
  World.mk (World.loggedInUser placed) (World.accounts placed) (World.carts placed)
    {["prod-B" := Scenario.bolt]}
    (World.catalogue placed) (World.shipments placed) (World.payments placed)
    (World.orders placed) (World.nextId placed) (World.writes placed).

(** ** Lemmas on the pieces of checkout *)

Lemma addItems_items (items : list Item.t) (order : Order.t) :
  Order.items (OrderController.addItems order items) = (Order.items order ++ items)%list.
Proof.
  revert order. induction items as [|[p q] items IH]; intros order; simpl.
  - by rewrite app_nil_r.
  - rewrite IH. simpl. by rewrite <- app_assoc.
Qed.

Lemma addItems_userId (items : list Item.t) (order : Order.t) :
  Order.userId (OrderController.addItems order items) = Order.userId order.
Proof.
  revert order. induction items as [|[p q] items IH]; intros order; simpl; [done|].
  by rewrite IH.
Qed.

Lemma short_false (catalogue : gmap string Z) (items : list Item.t) :
  existsb (OrderController.short catalogue) items = false <->
  forall item, In item items ->
    (Item.quantity item <= Catalogue.getItemQuantity catalogue (Item.product item))%Z.
Proof.
  unfold OrderController.short. split.
  - intros H item Hin. destruct (Z.ltb_spec
      (Catalogue.getItemQuantity catalogue (Item.product item)) (Item.quantity item)) as [Hlt|Hge];
      [|done].
    assert (existsb (fun item => (Catalogue.getItemQuantity catalogue (Item.product item)
                                  <? Item.quantity item)%Z) items = true) as Hex.
    { apply existsb_exists. exists item. split; [done|]. by apply Z.ltb_lt. }
    congruence.
  - intros H. apply not_true_is_false. intros Hex.
    apply existsb_exists in Hex as (item & Hin & Hlt).
    apply Z.ltb_lt in Hlt. specialize (H item Hin). lia.
Qed.

Lemma short_true (catalogue : gmap string Z) (items : list Item.t) :
  existsb (OrderController.short catalogue) items = true <->
  exists item, In item items /\
    (Catalogue.getItemQuantity catalogue (Item.product item) < Item.quantity item)%Z.
Proof.
  unfold OrderController.short. rewrite existsb_exists.
  split; intros (item & Hin & H); exists item; (split; [done|]); by apply Z.ltb_lt.
Qed.

(** Hydration only reads. *)
Lemma hydrate_world (items : list ItemJSON.t) (w : World.t) :
  snd (OrderController.hydrate items w) = w.
Proof.
  induction items as [|item items IH]; simpl; [done|].
  unfold bind, ProductController.get, ProductRepository.getById, gets. simpl.
  destruct (World.products w !! ItemJSON.productId item); [|done].
  destruct (OrderController.hydrate items w) as [[its|e] w'] eqn:E; simpl in *; by subst.
Qed.

(** Hydration reads the product store and nothing else. *)
Lemma hydrate_products (items : list ItemJSON.t) (w1 w2 : World.t) :
  World.products w1 = World.products w2 ->
  fst (OrderController.hydrate items w1) = fst (OrderController.hydrate items w2).
Proof.
  intros Heq. induction items as [|item items IH]; simpl; [done|].
  unfold bind, ProductController.get, ProductRepository.getById, gets. simpl.
  rewrite <- Heq. destruct (World.products w1 !! ItemJSON.productId item); [|done].
  destruct (OrderController.hydrate items w1) as [[its1|e1] w1'],
           (OrderController.hydrate items w2) as [[its2|e2] w2']; simpl in *; congruence.
Qed.

(** Every line resolves: hydration returns the lines with their products. *)
Lemma hydrate_resolved (items : list ItemJSON.t) (w : World.t) :
  (forall item, In item items -> is_Some (World.products w !! ItemJSON.productId item)) ->
  exists lines, OrderController.hydrate items w = (Ok lines, w) /\
                map Item.quantity lines = map ItemJSON.quantity items.
Proof.
  induction items as [|item items IH]; intros Hall; simpl.
  - by exists [].
  - destruct (Hall item (or_introl eq_refl)) as [p Hp].
    destruct IH as (lines & Hl & Hq); [intros; apply Hall; by right|].
    exists (Item.mk p (ItemJSON.quantity item) :: lines).
    unfold bind, ProductController.get, ProductRepository.getById, gets. simpl.
    rewrite Hp, Hl. simpl. by rewrite Hq.
Qed.

(** Some line does not resolve: hydration throws, naming such a line. *)
Lemma hydrate_unresolved (items : list ItemJSON.t) (w : World.t) :
  (exists item, In item items /\ World.products w !! ItemJSON.productId item = None) ->
  exists item, In item items /\ World.products w !! ItemJSON.productId item = None /\
    OrderController.hydrate items w = (Throw (ProductNotFound (ItemJSON.productId item)), w).
Proof.
  induction items as [|item items IH]; intros (bad & Hin & Hbad); [by destruct Hin|].
  simpl. unfold bind, ProductController.get, ProductRepository.getById, gets. simpl.
  destruct (World.products w !! ItemJSON.productId item) as [p|] eqn:Hp.
  - destruct Hin as [->|Hin]; [congruence|].
    destruct IH as (it & Hit & Hnone & Hrun); [by exists bad|].
    exists it. rewrite Hrun. by repeat split; [right|..].
  - exists item. by repeat split; [left|..].
Qed.

(** The updates, whatever their order, all complete. *)
Lemma updateAll_run (calls : list (Product.t * Z)) (w : World.t) :
  OrderController.updateAll calls w =
  (Ok tt,
   World.mk (World.loggedInUser w) (World.accounts w) (World.carts w)
     (World.products w) (stockAfter calls (World.catalogue w)) (World.shipments w)
     (World.payments w) (World.orders w) (World.nextId w)
     (World.writes w ++ map stockWrite calls)%list).
Proof.
  revert w. induction calls as [|[p q] calls IH]; intros w; simpl.
  - unfold ret. rewrite app_nil_r. by destruct w.
  - unfold bind, CatalogueController.updateProductQuantity, modify. simpl.
    rewrite IH. simpl. unfold stockWrite at 2. simpl. by rewrite <- app_assoc.
Qed.

(** The three stores, run. *)
Lemma storeShipment_run (s : Shipment.t) (w : World.t) :
  ShipmentController.storeShipment s w =
  (Ok (Shipment.mk (Some (pretty (World.nextId w))) (Shipment.type s) (Shipment.fee s)
         (Shipment.address s)),
   World.mk (World.loggedInUser w) (World.accounts w) (World.carts w)
     (World.products w) (World.catalogue w)
     (<[pretty (World.nextId w) :=
          Shipment.mk (Some (pretty (World.nextId w))) (Shipment.type s) (Shipment.fee s)
            (Shipment.address s)]> (World.shipments w))
     (World.payments w) (World.orders w) (S (World.nextId w))
     (World.writes w ++ [WShipment (pretty (World.nextId w))])%list).
Proof. reflexivity. Qed.

Lemma storePayment_run (p : Payment.t) (w : World.t) :
  PaymentController.storePayment p w =
  (Ok (Payment.mk (Some (pretty (World.nextId w))) (Payment.type p) (Payment.amount p)
         (Payment.date p) (Payment.status p) (Payment.cardNumber p) (Payment.expiryDate p)
         (Payment.paymentGateway p)),
   World.mk (World.loggedInUser w) (World.accounts w) (World.carts w)
     (World.products w) (World.catalogue w) (World.shipments w)
     (<[pretty (World.nextId w) :=
          Payment.mk (Some (pretty (World.nextId w))) (Payment.type p) (Payment.amount p)
            (Payment.date p) (Payment.status p) (Payment.cardNumber p) (Payment.expiryDate p)
            (Payment.paymentGateway p)]> (World.payments w))
     (World.orders w) (S (World.nextId w))
     (World.writes w ++ [WPayment (pretty (World.nextId w))])%list).
Proof. reflexivity. Qed.

Lemma create_run (now userId : string) (items : list ItemJSON.t)
    (paymentId shipmentId : option string) (status : string) (cancellation : bool)
    (w : World.t) :
  OrderRepository.create now userId items paymentId shipmentId status cancellation w =
  (Ok (OrderJSON.mk userId (pretty (World.nextId w)) now items paymentId shipmentId status
         cancellation),
   World.mk (World.loggedInUser w) (World.accounts w) (World.carts w)
     (World.products w) (World.catalogue w) (World.shipments w) (World.payments w)
     (<[pretty (World.nextId w) :=
          OrderJSON.mk userId (pretty (World.nextId w)) now items paymentId shipmentId status
            cancellation]> (World.orders w))
     (S (World.nextId w))
     (World.writes w ++ [WOrder (pretty (World.nextId w))])%list).
Proof. reflexivity. Qed.

(** ** A run of checkout past its checks *)

Section Runs.

Variable now : string.
Variable createShipmentObject : JointShipment.t -> Shipment.t.

Lemma checkout_checks (sched : Schedule) (w : World.t)
    (paymentDetails : JointPayment.t) (shipmentDetails : JointShipment.t)
    (user : User.t) (cart : Cart.t) :
  ready w paymentDetails shipmentDetails user cart ->
  OrderController.checkout now createShipmentObject sched paymentDetails shipmentDetails w =
  if Nat.eqb (length (Cart.items cart)) 0 then (Throw EmptyCart, w) else
  if existsb (OrderController.short (World.catalogue w)) (Cart.items cart)
  then (Throw InsufficientStock, w) else
  match fst (OrderController.hydrate (map toJSON (Cart.items cart)) w) with
  | Throw e => (Throw e, persisted now createShipmentObject paymentDetails shipmentDetails user cart w)
  | Ok lines =>
      (Ok (Order.mk (User.id user) (Some (orderId w)) now lines
             (Some (storedPayment now createShipmentObject paymentDetails shipmentDetails user cart w))
             (Some (storedShipment createShipmentObject shipmentDetails user w))
             "Pending" false),
       completed now createShipmentObject (sched (map (decrement (World.catalogue w)) (Cart.items cart)))
         paymentDetails shipmentDetails user cart w)
  end.
Proof.
  intros [Hs Hp Hsh Hu Hc].
  unfold OrderController.checkout, bind at 1, gets at 1. simpl.
  rewrite Hs, Hp, Hsh. simpl.
  unfold bind at 1, AccountController.getAccount, gets at 1. simpl. rewrite Hu.
  unfold bind at 1, CartController.getCart, gets at 1. simpl. rewrite Hc.
  destruct (Nat.eqb (length (Cart.items cart)) 0); [done|].
  unfold bind at 1, CatalogueController.getCatalogue, gets at 1. simpl.
  destruct (existsb _ _); [done|].
  unfold bind at 1. rewrite storeShipment_run.
  unfold bind at 1. rewrite storePayment_run.
  unfold bind at 1, OrderController.createOrder, bind at 1. rewrite create_run.
  cbn [World.nextId World.writes World.products World.payments World.shipments World.orders
       World.catalogue World.carts World.accounts World.loggedInUser
       Payment.id Shipment.id].
  rewrite addItems_items, addItems_userId.
  cbn [Order.items Order.userId Order.new Order.setShipment Order.setPayment app].
  fold (shipmentOf createShipmentObject shipmentDetails user).
  fold (paymentOf now createShipmentObject paymentDetails shipmentDetails user cart).
  fold toJSON.
  unfold OrderController.parseOrderJSON, bind at 1. cbn [OrderJSON.items].
  match goal with |- context [OrderController.hydrate ?l ?w'] =>
    pose proof (hydrate_world l w') as Hw;
    pose proof (hydrate_products l w' w eq_refl) as Hf;
    destruct (OrderController.hydrate l w') as [r w''] eqn:E
  end.
  cbn [fst snd] in Hw, Hf. subst w''. rewrite <- Hf.
  destruct r as [lines|e]; cbn [fst].
  - unfold bind at 1, PaymentController.getPaymentById, gets at 1.
    unfold bind at 1, ShipmentController.getShipmentById, gets at 1.
    cbn [World.payments World.shipments OrderJSON.paymentId OrderJSON.shipmentId].
    rewrite !lookup_insert_eq. unfold ret at 1.
    unfold bind at 1. rewrite updateAll_run.
    unfold bind, CartController.emptyCart, modify, ret, log, set_carts.
    cbn [World.nextId World.writes World.products World.payments World.shipments World.orders
         World.catalogue World.carts World.accounts World.loggedInUser
         OrderJSON.userId OrderJSON.id OrderJSON.orderDate OrderJSON.status
         OrderJSON.cancellation].
    unfold completed, persisted, storedShipment, storedPayment, storedOrder,
      shipmentId, paymentId, orderId.
    fold (decrement (World.catalogue w)).
    by rewrite <- !app_assoc.
  - unfold persisted, storedShipment, storedPayment, storedOrder,
      shipmentId, paymentId, orderId.
    by rewrite <- !app_assoc.
Qed.

End Runs.

(** ** Consequences of the run lemma *)

Section Outcomes.

Variable now : string.
Variable createShipmentObject : JointShipment.t -> Shipment.t.

Abbreviation checkout := (OrderController.checkout now createShipmentObject).

(** What hydration throws is a product that was not found. *)
Lemma hydrate_throws (items : list ItemJSON.t) (w w' : World.t) (e : Exn) :
  OrderController.hydrate items w = (Throw e, w') ->
  exists item, In item items /\ World.products w !! ItemJSON.productId item = None /\
               e = ProductNotFound (ItemJSON.productId item).
Proof.
  revert e w'. induction items as [|item items IH]; intros e w'; simpl; [done|].
  unfold bind, ProductController.get, ProductRepository.getById, gets. simpl.
  destruct (World.products w !! ItemJSON.productId item) as [p|] eqn:Hp.
  - destruct (OrderController.hydrate items w) as [[its|e0] w0] eqn:E; simpl; [done|].
    intros [= <- <-]. destruct (IH e0 w0 eq_refl) as (it & Hin & Hnone & ->).
    exists it. by repeat split; [right|..].
  - intros [= <- <-]. exists item. by repeat split; [left|..].
Qed.

(** A checkout that returns an order got past every check. *)
Lemma checkout_ok_ready (sched : Schedule) (w w' : World.t)
    (paymentDetails : JointPayment.t) (shipmentDetails : JointShipment.t) (o : Order.t) :
  checkout sched paymentDetails shipmentDetails w = (Ok o, w') ->
  exists user cart,
    ready w paymentDetails shipmentDetails user cart /\
    Cart.items cart <> [] /\
    existsb (OrderController.short (World.catalogue w)) (Cart.items cart) = false.
Proof.
  intros Hrun.
  assert (exists user cart, ready w paymentDetails shipmentDetails user cart) as (user & cart & Hr).
  { revert Hrun. unfold OrderController.checkout, bind at 1, gets at 1. simpl.
    destruct (truthy (World.loggedInUser w)) eqn:Hs; simpl; [|done].
    destruct (truthy (JointPayment.type paymentDetails)) eqn:Hp; simpl; [|done].
    destruct (truthy (JointShipment.type shipmentDetails)) eqn:Hsh; simpl; [|done].
    unfold bind at 1, AccountController.getAccount, gets at 1. simpl.
    destruct (World.accounts w !! default "" (World.loggedInUser w)) as [user|] eqn:Hu; [|done].
    unfold bind at 1, CartController.getCart, gets at 1. simpl.
    destruct (find _ (World.carts w)) as [cart|] eqn:Hc; [|done].
    intros _. exists user, cart. by constructor. }
  exists user, cart. split; [done|].
  rewrite (checkout_checks _ _ _ _ _ _ _ _ Hr) in Hrun.
  destruct (Nat.eqb (length (Cart.items cart)) 0) eqn:Hlen; [done|].
  split; [by intros Hnil; rewrite Hnil in Hlen|].
  by destruct (existsb _ _).
Qed.

(** The run of a checkout that returns an order. *)
Lemma checkout_ok_run (sched : Schedule) (w w' : World.t)
    (paymentDetails : JointPayment.t) (shipmentDetails : JointShipment.t)
    (user : User.t) (cart : Cart.t) (o : Order.t) :
  ready w paymentDetails shipmentDetails user cart ->
  checkout sched paymentDetails shipmentDetails w = (Ok o, w') ->
  exists lines,
    OrderController.hydrate (map toJSON (Cart.items cart)) w = (Ok lines, w) /\
    o = Order.mk (User.id user) (Some (orderId w)) now lines
          (Some (storedPayment now createShipmentObject paymentDetails shipmentDetails user cart w))
          (Some (storedShipment createShipmentObject shipmentDetails user w))
          "Pending" false /\
    w' = completed now createShipmentObject
           (sched (map (decrement (World.catalogue w)) (Cart.items cart)))
           paymentDetails shipmentDetails user cart w.
Proof.
  intros Hr Hrun. rewrite (checkout_checks _ _ _ _ _ _ _ _ Hr) in Hrun.
  destruct (Nat.eqb _ _); [done|]. destruct (existsb _ _); [done|].
  pose proof (hydrate_world (map toJSON (Cart.items cart)) w) as Hw.
  destruct (OrderController.hydrate _ w) as [[lines|e] w0]; simpl in *; [|done].
  subst w0. injection Hrun as <- <-. by exists lines.
Qed.


End Outcomes.

(** ** The claims on the failing checks *)

Section Checks.

Variable now : string.
Variable createShipmentObject : JointShipment.t -> Shipment.t.

Abbreviation checkout := (OrderController.checkout now createShipmentObject).

(** C7. An authenticated checkout with both type fields present whose
    user's cart has no lines throws the "Cart is empty" error (EmptyCart)
    and leaves the world exactly as it was: no shipment, payment or order
    is stored, no stock is updated, no cart is touched, and the trace of
    writes has not grown. *)
Theorem checkout_empty_cart (sched : Schedule) (w : World.t)
    (paymentDetails : JointPayment.t) (shipmentDetails : JointShipment.t)
    (user : User.t) (cart : Cart.t) :
  ready w paymentDetails shipmentDetails user cart ->
  Cart.items cart = [] ->
  checkout sched paymentDetails shipmentDetails w = (Throw EmptyCart, w).
Proof.
  intros Hr Hnil. rewrite (checkout_checks _ _ _ _ _ _ _ _ Hr). by rewrite Hnil.
Qed.

(** C1, amended. A checkout past the authentication, type and empty-cart
    checks throws the "One or more products are not available" error
    (InsufficientStock) if and only if some cart line asks for more than
    the catalogue snapshot holds of its product; the error is that fixed
    message; and the world is then exactly as it was: nothing is stored,
    no stock is updated and the cart is untouched. *)
Theorem checkout_insufficient_stock (sched : Schedule) (w : World.t)
    (paymentDetails : JointPayment.t) (shipmentDetails : JointShipment.t)
    (user : User.t) (cart : Cart.t) :
  ready w paymentDetails shipmentDetails user cart ->
  Cart.items cart <> [] ->
  let run := checkout sched paymentDetails shipmentDetails w in
  (fst run = Throw (Error "One or more products are not available") <->
   exists item, In item (Cart.items cart) /\
     (Catalogue.getItemQuantity (World.catalogue w) (Item.product item) < Item.quantity item)%Z)
  /\ (fst run = Throw (Error "One or more products are not available") -> snd run = w).
Proof.
  intros Hr Hne run. subst run. rewrite (checkout_checks _ _ _ _ _ _ _ _ Hr).
  destruct (Nat.eqb (length (Cart.items cart)) 0) eqn:Hlen.
  { destruct (Cart.items cart); [done|discriminate]. }
  destruct (existsb (OrderController.short (World.catalogue w)) (Cart.items cart)) eqn:Hshort.
  - apply short_true in Hshort. by repeat split.
  - destruct (OrderController.hydrate (map toJSON (Cart.items cart)) w) as [[lines|e] w0] eqn:E;
      simpl.
    + split; [|done]. split; [done|].
      intros Hex. apply short_true in Hex. congruence.
    + apply hydrate_throws in E as (item & _ & _ & ->).
      split; [|done]. split; [done|].
      intros Hex. apply short_true in Hex. congruence.
Qed.

End Checks.

(** C7, at the idle scenario. *)
Lemma checkout_empty_cart_witness :
  OrderController.checkout Scenario.now Scenario.createShipmentObject in_order
    Scenario.card Scenario.delivery Scenario.idle
  = (Throw EmptyCart, Scenario.idle).
Proof.
  apply (checkout_empty_cart Scenario.now Scenario.createShipmentObject in_order Scenario.idle
           Scenario.card Scenario.delivery Scenario.user (Scenario.cart [])).
  - by constructor.
  - reflexivity.
Defined.

(** C1 as worded fails at the scarce scenario: the anvil line is short,
    and the error names no product. *)
Lemma insufficient_stock_not_named :
  ~ insufficient_stock_named Scenario.now Scenario.createShipmentObject in_order
      Scenario.scarce Scenario.card Scenario.delivery (Scenario.cart Scenario.lines).
Proof.
  intros (_ & Hnames & _).
  specialize (Hnames InsufficientStock eq_refl (Item.mk Scenario.anvil 2) (or_introl eq_refl)).
  vm_compute in Hnames. specialize (Hnames eq_refl). discriminate.
Qed.

(** C1, amended, at the scarce scenario. *)
Lemma checkout_insufficient_stock_witness :
  let run := OrderController.checkout Scenario.now Scenario.createShipmentObject in_order
               Scenario.card Scenario.delivery Scenario.scarce in
  (fst run = Throw (Error "One or more products are not available") <->
   exists item, In item Scenario.lines /\
     (Catalogue.getItemQuantity (World.catalogue Scenario.scarce) (Item.product item)
      < Item.quantity item)%Z)
  /\ (fst run = Throw (Error "One or more products are not available") -> snd run = Scenario.scarce).
Proof.
  apply (checkout_insufficient_stock Scenario.now Scenario.createShipmentObject in_order
           Scenario.scarce Scenario.card Scenario.delivery Scenario.user
           (Scenario.cart Scenario.lines)).
  - by constructor.
  - discriminate.
Defined.

(** ** The claims on a checkout that persists *)

Section Persistence.

Variable now : string.
Variable createShipmentObject : JointShipment.t -> Shipment.t.

Abbreviation checkout := (OrderController.checkout now createShipmentObject).

Lemma paymentOf_amount (paymentDetails : JointPayment.t) (shipmentDetails : JointShipment.t)
    (user : User.t) (cart : Cart.t) :
  Payment.amount (paymentOf now createShipmentObject paymentDetails shipmentDetails user cart)
  = (Cart.getSubtotalPrice cart
     + Shipment.fee (createShipmentObject (OrderController.withAddress shipmentDetails user)))%Z.
Proof.
  unfold paymentOf, shipmentOf, OrderController.withCardDefaults, OrderController.withAmount.
  simpl. by case_bool_decide.
Qed.

(** C2. Whenever checkout returns an order, the payment of that order is
    the one persisted in the payment store under its identifier, and its
    amount is the subtotal of the cart plus the fee of the order's
    shipment, whatever amount the caller put into the payment details. *)
Theorem checkout_payment_amount (sched : Schedule) (w w' : World.t)
    (paymentDetails : JointPayment.t) (shipmentDetails : JointShipment.t) (o : Order.t) :
  checkout sched paymentDetails shipmentDetails w = (Ok o, w') ->
  exists user cart payment shipment paymentId,
    ready w paymentDetails shipmentDetails user cart /\
    Order.payment o = Some payment /\
    Order.shipment o = Some shipment /\
    Payment.id payment = Some paymentId /\
    World.payments w' !! paymentId = Some payment /\
    Payment.amount payment = (Cart.getSubtotalPrice cart + Shipment.fee shipment)%Z.
Proof.
  intros Hrun.
  destruct (checkout_ok_ready _ _ _ _ _ _ _ _ Hrun) as (user & cart & Hr & _ & _).
  destruct (checkout_ok_run _ _ _ _ _ _ _ _ _ _ Hr Hrun) as (lines & _ & -> & ->).
  exists user, cart,
    (storedPayment now createShipmentObject paymentDetails shipmentDetails user cart w),
    (storedShipment createShipmentObject shipmentDetails user w), (paymentId w).
  split; [done|]. simpl. repeat split.
  - apply lookup_insert_eq.
  - apply paymentOf_amount.
Qed.

(** C9. Whenever checkout returns an order, the order store holds, under
    the identifier of the returned order, a record whose payment and
    shipment identifiers are those of a payment and a shipment held by
    their stores, with status "Pending" and cancellation false; and the
    writes of the run start with the shipment, then the payment, then
    the order. *)
Theorem checkout_persists_order (sched : Schedule) (w w' : World.t)
    (paymentDetails : JointPayment.t) (shipmentDetails : JointShipment.t) (o : Order.t) :
  checkout sched paymentDetails shipmentDetails w = (Ok o, w') ->
  exists orderId paymentId shipmentId record payment shipment later,
    Order.id o = Some orderId /\
    World.orders w' !! orderId = Some record /\
    OrderJSON.id record = orderId /\
    OrderJSON.paymentId record = Some paymentId /\
    OrderJSON.shipmentId record = Some shipmentId /\
    World.payments w' !! paymentId = Some payment /\
    Payment.id payment = Some paymentId /\
    World.shipments w' !! shipmentId = Some shipment /\
    Shipment.id shipment = Some shipmentId /\
    OrderJSON.status record = "Pending" /\
    OrderJSON.cancellation record = false /\
    World.writes w' =
      (World.writes w ++ [WShipment shipmentId; WPayment paymentId; WOrder orderId] ++ later)%list.
Proof.
  intros Hrun.
  destruct (checkout_ok_ready _ _ _ _ _ _ _ _ Hrun) as (user & cart & Hr & _ & _).
  destruct (checkout_ok_run _ _ _ _ _ _ _ _ _ _ Hr Hrun) as (lines & _ & -> & ->).
  exists (orderId w), (paymentId w), (shipmentId w), (storedOrder now user cart w),
    (storedPayment now createShipmentObject paymentDetails shipmentDetails user cart w),
    (storedShipment createShipmentObject shipmentDetails user w),
    (map stockWrite (sched (map (decrement (World.catalogue w)) (Cart.items cart)))
       ++ [WCart (User.cart user)])%list.
  simpl. repeat split; apply lookup_insert_eq.
Qed.

(** C10. Hydration of the returned order comes right after the order
    record is persisted, before any stock update and before the cart is
    emptied: when a checkout past its four checks has a cart line whose
    product identifier is not in the product store, checkout throws
    "Product not found" for such a line, and by then the shipment, the
    payment and the order are persisted (these three writes and no
    other), while the catalogue and the carts are as they were. *)
Theorem checkout_unresolved_product (sched : Schedule) (w : World.t)
    (paymentDetails : JointPayment.t) (shipmentDetails : JointShipment.t)
    (user : User.t) (cart : Cart.t) :
  ready w paymentDetails shipmentDetails user cart ->
  Cart.items cart <> [] ->
  (forall item, In item (Cart.items cart) ->
     (Item.quantity item <= Catalogue.getItemQuantity (World.catalogue w) (Item.product item))%Z) ->
  (exists item, In item (Cart.items cart) /\
     World.products w !! Product.id (Item.product item) = None) ->
  exists item w',
    In item (Cart.items cart) /\
    World.products w !! Product.id (Item.product item) = None /\
    checkout sched paymentDetails shipmentDetails w
      = (Throw (Error ("Product not found: " ++ Product.id (Item.product item))), w') /\
    (exists shipmentId paymentId orderId shipment payment record,
        World.shipments w' !! shipmentId = Some shipment /\
        World.payments w' !! paymentId = Some payment /\
        World.orders w' !! orderId = Some record /\
        OrderJSON.paymentId record = Some paymentId /\
        OrderJSON.shipmentId record = Some shipmentId /\
        World.writes w' =
          (World.writes w ++ [WShipment shipmentId; WPayment paymentId; WOrder orderId])%list) /\
    World.catalogue w' = World.catalogue w /\
    World.carts w' = World.carts w.
Proof.
  intros Hr Hne Hfit (bad & Hin & Hbad).
  destruct (hydrate_unresolved (map toJSON (Cart.items cart)) w) as (j & Hj & Hnone & Hrun).
  { exists (toJSON bad). split; [|done]. by apply in_map. }
  apply in_map_iff in Hj as (item & <- & Hitem).
  exists item, (persisted now createShipmentObject paymentDetails shipmentDetails user cart w).
  split; [done|]. split; [done|]. split.
  - rewrite (checkout_checks _ _ _ _ _ _ _ _ Hr).
    destruct (Nat.eqb (length (Cart.items cart)) 0) eqn:Hlen.
    { destruct (Cart.items cart); [done|discriminate]. }
    apply short_false in Hfit. rewrite Hfit, Hrun. done.
  - split; [|done].
    exists (shipmentId w), (paymentId w), (orderId w),
      (storedShipment createShipmentObject shipmentDetails user w),
      (storedPayment now createShipmentObject paymentDetails shipmentDetails user cart w),
      (storedOrder now user cart w).
    simpl. repeat split; apply lookup_insert_eq.
Qed.


End Persistence.

(** ** The catalogue after the stock updates *)

Lemma stockAfter_app (a b : list (Product.t * Z)) (c : gmap string Z) :
  stockAfter (a ++ b) c = stockAfter b (stockAfter a c).
Proof. unfold stockAfter. apply fold_left_app. Qed.

(** Updates of other products leave a product's quantity alone. *)
Lemma stockAfter_other (calls : list (Product.t * Z)) (c : gmap string Z) (k : string) :
  (forall call, In call calls -> Product.id (fst call) <> k) ->
  stockAfter calls c !! k = c !! k.
Proof.
  revert c. induction calls as [|call calls IH]; intros c Hk; simpl; [done|].
  rewrite IH by (intros; apply Hk; by right).
  apply lookup_insert_ne. apply Hk. by left.
Qed.

(** The update of a product that completes last decides its quantity. *)
Lemma stockAfter_last (before after : list (Product.t * Z)) (p : Product.t) (q : Z)
    (c : gmap string Z) :
  (forall call, In call after -> Product.id (fst call) <> Product.id p) ->
  stockAfter (before ++ (p, q) :: after) c !! Product.id p = Some q.
Proof.
  intros Hafter. rewrite stockAfter_app. simpl.
  rewrite stockAfter_other by done. apply lookup_insert_eq.
Qed.

(** Among the calls for a product there is one that completes last. *)
Lemma last_call (calls : list (Product.t * Z)) (k : string) :
  (exists call, In call calls /\ Product.id (fst call) = k) ->
  exists before p q after,
    calls = (before ++ (p, q) :: after)%list /\ Product.id p = k /\
    forall call, In call after -> Product.id (fst call) <> k.
Proof.
  induction calls as [|[p q] calls IH]; intros (call & Hin & Hk); [by destruct Hin|].
  destruct (existsb (fun c => String.eqb (Product.id (fst c)) k) calls) eqn:Hex.
  - apply existsb_exists in Hex as (c & Hc & Heq). apply String.eqb_eq in Heq.
    destruct IH as (before & p' & q' & after & -> & Hp & Hafter); [by exists c|].
    by exists ((p, q) :: before), p', q', after.
  - destruct Hin as [<-|Hin].
    + exists [], p, q, calls. repeat split; [done|].
      intros c Hc Heq. apply String.eqb_eq in Heq.
      assert (existsb (fun c => String.eqb (Product.id (fst c)) k) calls = true); [|congruence].
      apply existsb_exists. by exists c.
    + assert (existsb (fun c => String.eqb (Product.id (fst c)) k) calls = true); [|congruence].
      apply existsb_exists. exists call. split; [done|]. by apply String.eqb_eq.
Qed.

Lemma requested_app (k : string) (a b : list Item.t) :
  requested k (a ++ b) = (requested k a + requested k b)%Z.
Proof. induction a as [|x a IH]; simpl; [done|]. rewrite IH. lia. Qed.

Lemma requested_nonneg (k : string) (items : list Item.t) :
  (forall item, In item items -> (0 < Item.quantity item)%Z) ->
  (0 <= requested k items)%Z.
Proof.
  induction items as [|x items IH]; intros Hpos; simpl; [done|].
  specialize (Hpos x (or_introl eq_refl)) as Hx.
  assert (0 <= requested k items)%Z by (apply IH; intros; apply Hpos; by right).
  destruct (String.eqb _ _); lia.
Qed.

Lemma requested_line (k : string) (items : list Item.t) (x : Item.t) :
  (forall item, In item items -> (0 < Item.quantity item)%Z) ->
  In x items -> Product.id (Item.product x) = k ->
  (Item.quantity x <= requested k items)%Z.
Proof.
  induction items as [|y items IH]; intros Hpos Hin Hk; [by destruct Hin|]. simpl.
  assert (0 <= requested k items)%Z by (apply requested_nonneg; intros; apply Hpos; by right).
  destruct Hin as [->|Hin].
  - rewrite Hk, String.eqb_refl. lia.
  - assert (Item.quantity x <= requested k items)%Z
      by (apply IH; [intros; apply Hpos; by right|done..]).
    specialize (Hpos y (or_introl eq_refl)). destruct (String.eqb _ _); lia.
Qed.

(** With positive quantities, two lines for a product ask for more than
    any one line for it. *)
Lemma requested_two_lines (k : string) (l1 l2 l3 : list Item.t) (a b x : Item.t) :
  let items := (l1 ++ a :: l2 ++ b :: l3)%list in
  (forall item, In item items -> (0 < Item.quantity item)%Z) ->
  Product.id (Item.product a) = k -> Product.id (Item.product b) = k ->
  In x items -> Product.id (Item.product x) = k ->
  (Item.quantity x < requested k items)%Z.
Proof.
  intros items Hpos Ha Hb Hin Hx. subst items.
  assert (0 < Item.quantity a)%Z as Hqa by (apply Hpos; rewrite in_app_iff; right; by left).
  assert (0 < Item.quantity b)%Z as Hqb.
  { apply Hpos. rewrite in_app_iff. right. right. rewrite in_app_iff. right. by left. }
  assert (forall l, (forall item, In item l -> In item (l1 ++ a :: l2 ++ b :: l3)%list) ->
                    (0 <= requested k l)%Z /\ (In x l -> (Item.quantity x <= requested k l)%Z))
    as Hpart.
  { intros l Hsub. split.
    - apply requested_nonneg. intros; apply Hpos; by apply Hsub.
    - intros Hxl. apply requested_line; [|done..]. intros; apply Hpos; by apply Hsub. }
  destruct (Hpart l1) as [H1 H1x]; [intros; rewrite in_app_iff; by left|].
  destruct (Hpart l2) as [H2 H2x].
  { intros; rewrite in_app_iff; right; right; rewrite in_app_iff; by left. }
  destruct (Hpart l3) as [H3 H3x].
  { intros; rewrite in_app_iff; right; right; rewrite in_app_iff; right; by right. }
  rewrite requested_app. simpl. rewrite requested_app. simpl.
  rewrite Ha, Hb, !String.eqb_refl.
  rewrite in_app_iff in Hin. simpl in Hin. rewrite in_app_iff in Hin. simpl in Hin.
  destruct Hin as [Hin|[<-|[Hin|[<-|Hin]]]]; try lia.
  - specialize (H1x Hin). lia.
  - specialize (H2x Hin). lia.
  - specialize (H3x Hin). lia.
Qed.

(** ** The claims on the stock *)

Section Stock.

Variable now : string.
Variable createShipmentObject : JointShipment.t -> Shipment.t.

Abbreviation checkout := (OrderController.checkout now createShipmentObject).

(** Every line fits on its own and resolves: checkout returns an order. *)
Lemma checkout_succeeds (sched : Schedule) (w : World.t)
    (paymentDetails : JointPayment.t) (shipmentDetails : JointShipment.t)
    (user : User.t) (cart : Cart.t) :
  ready w paymentDetails shipmentDetails user cart ->
  Cart.items cart <> [] ->
  (forall item, In item (Cart.items cart) ->
     (Item.quantity item <= Catalogue.getItemQuantity (World.catalogue w) (Item.product item))%Z) ->
  (forall item, In item (Cart.items cart) ->
     is_Some (World.products w !! Product.id (Item.product item))) ->
  exists o,
    checkout sched paymentDetails shipmentDetails w =
    (Ok o, completed now createShipmentObject
             (sched (map (decrement (World.catalogue w)) (Cart.items cart)))
             paymentDetails shipmentDetails user cart w).
Proof.
  intros Hr Hne Hfit Hres.
  destruct (hydrate_resolved (map toJSON (Cart.items cart)) w) as (lines & Hl & _).
  { intros j Hj. apply in_map_iff in Hj as (item & <- & Hitem). by apply Hres. }
  rewrite (checkout_checks _ _ _ _ _ _ _ _ Hr).
  destruct (Nat.eqb (length (Cart.items cart)) 0) eqn:Hlen.
  { destruct (Cart.items cart); [done|discriminate]. }
  apply short_false in Hfit. rewrite Hfit, Hl. simpl. by eexists.
Qed.

(** The quantity of a cart product after the updates: the write for it
    that completed last, which is the decrement of one of its lines. *)
Lemma stock_of_last_line (sched : Schedule) (catalogue : gmap string Z)
    (items : list Item.t) (item : Item.t) :
  fair sched ->
  In item items ->
  exists winner before after,
    sched (map (decrement catalogue) items)
      = (before ++ decrement catalogue winner :: after)%list /\
    In winner items /\
    Product.id (Item.product winner) = Product.id (Item.product item) /\
    (forall call, In call after -> Product.id (fst call) <> Product.id (Item.product item)) /\
    Catalogue.getItemQuantity
      (stockAfter (sched (map (decrement catalogue) items)) catalogue) (Item.product item)
    = (Catalogue.getItemQuantity catalogue (Item.product item) - Item.quantity winner)%Z.
Proof.
  intros Hfair Hin.
  pose proof (Hfair (map (decrement catalogue) items)) as Hperm.
  destruct (last_call (sched (map (decrement catalogue) items)) (Product.id (Item.product item)))
    as (before & p & q & after & Heq & Hp & Hafter).
  { exists (decrement catalogue item). split; [|done].
    apply (Permutation_in _ Hperm). by apply in_map. }
  assert (In (p, q) (map (decrement catalogue) items)) as Hpq.
  { apply (Permutation_in _ (Permutation_sym Hperm)). rewrite Heq.
    apply in_app_iff. right. by left. }
  apply in_map_iff in Hpq as (winner & Hw & Hwin).
  injection Hw as <- <-.
  exists winner, before, after. repeat split; try done.
  unfold Catalogue.getItemQuantity at 1. rewrite Heq, <- Hp.
  rewrite stockAfter_last by (by rewrite Hp). simpl.
  unfold Catalogue.getItemQuantity. by rewrite Hp.
Qed.

(** C3, amended. After a successful checkout, whatever the order in
    which the stock updates complete, the stock writes of the run are,
    up to that order, one per cart line, each setting the line's product
    to the snapshot quantity minus the quantity of the line; and for
    every line whose product is on no other line of the cart, the
    catalogue quantity of the product afterwards is the quantity before
    minus the quantity of the line. *)
Theorem checkout_decrements_stock (sched : Schedule) (w w' : World.t)
    (paymentDetails : JointPayment.t) (shipmentDetails : JointShipment.t)
    (user : User.t) (cart : Cart.t) (o : Order.t) :
  fair sched ->
  ready w paymentDetails shipmentDetails user cart ->
  checkout sched paymentDetails shipmentDetails w = (Ok o, w') ->
  (exists calls shipmentId paymentId orderId,
      Permutation (map (decrement (World.catalogue w)) (Cart.items cart)) calls /\
      World.writes w' =
        (World.writes w ++ [WShipment shipmentId; WPayment paymentId; WOrder orderId]
           ++ map stockWrite calls ++ [WCart (User.cart user)])%list) /\
  (forall before item after,
      Cart.items cart = (before ++ item :: after)%list ->
      (forall other, In other (before ++ after)%list ->
         Product.id (Item.product other) <> Product.id (Item.product item)) ->
      Catalogue.getItemQuantity (World.catalogue w') (Item.product item)
      = (Catalogue.getItemQuantity (World.catalogue w) (Item.product item)
         - Item.quantity item)%Z).
Proof.
  intros Hfair Hr Hrun.
  destruct (checkout_ok_run _ _ _ _ _ _ _ _ _ _ Hr Hrun) as (lines & _ & -> & ->).
  split.
  - exists (sched (map (decrement (World.catalogue w)) (Cart.items cart))),
      (shipmentId w), (paymentId w), (orderId w).
    split; [apply Hfair|done].
  - intros before item after Hsplit Hother. simpl.
    destruct (stock_of_last_line sched (World.catalogue w) (Cart.items cart) item Hfair)
      as (winner & _ & _ & _ & Hwin & Hid & _ & ->).
    { rewrite Hsplit. apply in_app_iff. right. by left. }
    rewrite Hsplit in Hwin. apply in_app_iff in Hwin as [Hwin|[<-|Hwin]]; [|done|].
    + exfalso. apply (Hother winner); [|done]. apply in_app_iff. by left.
    + exfalso. apply (Hother winner); [|done]. apply in_app_iff. by right.
Qed.

(** C4. Let every line of the cart fit the snapshot on its own and
    resolve in the product store; nothing is asked of the lines of one
    product taken together. Then checkout returns an order, and for every
    cart line the catalogue quantity of its product afterwards is the
    snapshot quantity minus the quantity of a single line for that
    product, the one whose update completed last. With positive
    quantities and two or more lines for the product, that is not the
    snapshot quantity minus what the lines ask for together. *)
Theorem checkout_same_product_lines (sched : Schedule) (w : World.t)
    (paymentDetails : JointPayment.t) (shipmentDetails : JointShipment.t)
    (user : User.t) (cart : Cart.t) :
  fair sched ->
  ready w paymentDetails shipmentDetails user cart ->
  Cart.items cart <> [] ->
  (forall item, In item (Cart.items cart) ->
     (Item.quantity item <= Catalogue.getItemQuantity (World.catalogue w) (Item.product item))%Z) ->
  (forall item, In item (Cart.items cart) ->
     is_Some (World.products w !! Product.id (Item.product item))) ->
  exists o w',
    checkout sched paymentDetails shipmentDetails w = (Ok o, w') /\
    forall item, In item (Cart.items cart) ->
      (exists winner before after,
          sched (map (decrement (World.catalogue w)) (Cart.items cart))
            = (before ++ decrement (World.catalogue w) winner :: after)%list /\
          In winner (Cart.items cart) /\
          Product.id (Item.product winner) = Product.id (Item.product item) /\
          (forall call, In call after ->
             Product.id (fst call) <> Product.id (Item.product item)) /\
          Catalogue.getItemQuantity (World.catalogue w') (Item.product item)
          = (Catalogue.getItemQuantity (World.catalogue w) (Item.product item)
             - Item.quantity winner)%Z) /\
      ((forall other, In other (Cart.items cart) -> (0 < Item.quantity other)%Z) ->
       (exists l1 a l2 b l3,
           Cart.items cart = (l1 ++ a :: l2 ++ b :: l3)%list /\
           Product.id (Item.product a) = Product.id (Item.product item) /\
           Product.id (Item.product b) = Product.id (Item.product item)) ->
       Catalogue.getItemQuantity (World.catalogue w') (Item.product item)
       <> (Catalogue.getItemQuantity (World.catalogue w) (Item.product item)
           - requested (Product.id (Item.product item)) (Cart.items cart))%Z).
Proof.
  intros Hfair Hr Hne Hfit Hres.
  destruct (checkout_succeeds sched _ _ _ _ _ Hr Hne Hfit Hres) as (o & Hrun).
  eexists o, _. split; [exact Hrun|].
  intros item Hin. simpl.
  destruct (stock_of_last_line sched (World.catalogue w) (Cart.items cart) item Hfair Hin)
    as (winner & before & after & Heq & Hwin & Hid & Hafter & Hq).
  split.
  - by exists winner, before, after.
  - intros Hpos (l1 & a & l2 & b & l3 & Hsplit & Ha & Hb). rewrite Hq.
    pose proof (requested_two_lines (Product.id (Item.product item)) l1 l2 l3 a b winner) as Hlt.
    simpl in Hlt. rewrite <- Hsplit in Hlt.
    specialize (Hlt Hpos Ha Hb Hwin Hid). lia.
Qed.

End Stock.

(** ** The claims on receipts *)

Lemma verify_spec (order : Order.t) :
  Order.verify order = true <->
  Order.items order <> [] /\ is_Some (Order.payment order) /\ is_Some (Order.shipment order).
Proof.
  unfold Order.verify. rewrite !andb_true_iff, !bool_decide_eq_true, negb_true_iff.
  destruct (Order.items order); simpl.
  - split; [by intros [[? _] _]|by intros [? _]].
  - split; [by intros [[_ ?] ?]|by intros (_ & ? & ?)].
Qed.

(** The lines hydration returns carry the products the store holds now. *)
Lemma hydrate_lines (items : list ItemJSON.t) (w w' : World.t) (lines : list Item.t) :
  OrderController.hydrate items w = (Ok lines, w') ->
  Forall2 (fun j line =>
             World.products w !! ItemJSON.productId j = Some (Item.product line) /\
             Item.quantity line = ItemJSON.quantity j)
          items lines.
Proof.
  revert lines w'. induction items as [|j items IH]; intros lines w'; simpl.
  - intros [= <- <-]. constructor.
  - unfold bind, ProductController.get, ProductRepository.getById, gets. simpl.
    destruct (World.products w !! ItemJSON.productId j) as [p|] eqn:Hp; [|done].
    destruct (OrderController.hydrate items w) as [[rest|e] w0] eqn:E; simpl; [|done].
    intros [= <- <-]. constructor; [done|]. by eapply IH.
Qed.

(** C5. generateReceipt throws "Order is not valid" (InvalidOrder) exactly
    when [verify] is false; [verify] is true exactly for an order with a
    non-empty item list, a payment and a shipment; an order that passes
    [verify] and whose user the account store does not hold makes it throw
    "User not found" (UserNotFound); and [verify] is tested first: an
    order that fails it makes generateReceipt throw InvalidOrder also when
    its user does not resolve. *)
Theorem generateReceipt_errors (order : Order.t) (w : World.t) :
  (fst (OrderController.generateReceipt order w) = Throw InvalidOrder <->
   Order.verify order = false) /\
  (Order.verify order = true <->
   Order.items order <> [] /\ is_Some (Order.payment order) /\ is_Some (Order.shipment order)) /\
  (Order.verify order = true ->
   World.accounts w !! Order.userId order = None ->
   OrderController.generateReceipt order w = (Throw (UserNotFound (Order.userId order)), w)) /\
  (Order.verify order = false ->
   World.accounts w !! Order.userId order = None ->
   OrderController.generateReceipt order w = (Throw InvalidOrder, w)).
Proof.
  unfold OrderController.generateReceipt, bind, AccountController.getAccount, gets, throw, ret.
  split; [|split; [apply verify_spec|split]].
  - destruct (Order.verify order); simpl; [|done].
    destruct (World.accounts w !! Order.userId order); simpl; split; discriminate.
  - intros Hv Hu. rewrite Hv. simpl. by rewrite Hu.
  - intros Hv _. by rewrite Hv.
Qed.

(** C6. When generateReceipt returns a receipt, the world is as it was
    (the stored order included), the total of the receipt is the order's
    [getTotalPrice], and the receipt has one line per order line, with the
    line's product and quantity and, as price, the price the product holds
    now times the quantity. For an order hydrated from its record in this
    world, that is the price the product store holds for the line's
    product now, whatever it was when the order was placed. *)
Theorem generateReceipt_prices (order : Order.t) (w w' : World.t) (receipt : Receipt.t) :
  OrderController.generateReceipt order w = (Ok receipt, w') ->
  w' = w /\
  Receipt.total receipt = Order.getTotalPrice order /\
  Receipt.items receipt = map receiptLine (Order.items order) /\
  (forall record,
     OrderController.parseOrderJSON record w = (Ok order, w) ->
     Forall2 (fun j line =>
                exists p, World.products w !! ItemJSON.productId j = Some p /\
                          ReceiptItem.quantity line = ItemJSON.quantity j /\
                          ReceiptItem.price line = (Product.price p * ItemJSON.quantity j)%Z)
             (OrderJSON.items record) (Receipt.items receipt)).
Proof.
  unfold OrderController.generateReceipt, bind, AccountController.getAccount, gets, throw, ret.
  destruct (Order.verify order); simpl; [|done].
  destruct (World.accounts w !! Order.userId order) as [user|]; simpl; [|done].
  intros [= <- <-]. simpl. repeat split.
  intros record. unfold OrderController.parseOrderJSON, bind at 1.
  destruct (OrderController.hydrate (OrderJSON.items record) w) as [[lines|e] w0] eqn:E; [|done].
  apply hydrate_lines in E.
  unfold bind, PaymentController.getPaymentById, ShipmentController.getShipmentById, gets, ret.
  simpl. intros [= <- _]. simpl.
  induction E as [|j line items lines (Hp & Hq) _ IH]; simpl; constructor; [|done].
  exists (Item.product line). by rewrite Hq.
Qed.

(** ** The claims at the scenarios *)

Lemma scenario_ready (lines : list Item.t) (stock : gmap string Z) :
  ready (Scenario.world lines stock) Scenario.card Scenario.delivery Scenario.user
    (Scenario.cart lines).
Proof. by constructor. Defined.

(** The first scenario of the spec: the checkout succeeds with an amount
    of 28, the order is pending with two lines, the stock is 3 and 4, and
    the cart is empty. *)
Example stocked_scenario :
  let o := returned (run in_order Scenario.stocked) in
  let w' := snd (run in_order Scenario.stocked) in
  run in_order Scenario.stocked = (Ok o, w') /\
  Payment.amount <$> Order.payment o = Some 28%Z /\
  Order.status o = "Pending" /\ Order.cancellation o = false /\
  length (Order.items o) = 2%nat /\
  World.catalogue w' !! "prod-A" = Some 3%Z /\
  World.catalogue w' !! "prod-B" = Some 4%Z /\
  Cart.items <$> World.carts w' = [[]].
Proof. vm_compute. by repeat split. Qed.

(** The second scenario of the spec: the checkout fails and nothing moved. *)
Example scarce_scenario :
  run in_order Scenario.scarce = (Throw InsufficientStock, Scenario.scarce).
Proof. vm_compute. reflexivity. Qed.

(** An empty expiry date counts as none, like an empty type. *)
Example empty_expiry_defaulted :
  JointPayment.expiryDate
    (OrderController.withCardDefaults Scenario.now
       (JointPayment.mk None (Some "card") None None None None (Some "") None))
  = Some Scenario.now.
Proof. reflexivity. Qed.

(** C2, at the stocked scenario. *)
Lemma checkout_payment_amount_witness :
  let o := returned (run in_order Scenario.stocked) in
  let w' := snd (run in_order Scenario.stocked) in
  run in_order Scenario.stocked = (Ok o, w') /\
  exists user cart payment shipment paymentId,
    ready Scenario.stocked Scenario.card Scenario.delivery user cart /\
    Order.payment o = Some payment /\
    Order.shipment o = Some shipment /\
    Payment.id payment = Some paymentId /\
    World.payments w' !! paymentId = Some payment /\
    Payment.amount payment = (Cart.getSubtotalPrice cart + Shipment.fee shipment)%Z.
Proof.
  split; [vm_compute; reflexivity|].
  apply (checkout_payment_amount Scenario.now Scenario.createShipmentObject in_order
           Scenario.stocked (snd (run in_order Scenario.stocked))
           Scenario.card Scenario.delivery (returned (run in_order Scenario.stocked))).
  vm_compute; reflexivity.
Defined.

(** C9, at the stocked scenario. *)
Lemma checkout_persists_order_witness :
  let o := returned (run in_order Scenario.stocked) in
  let w' := snd (run in_order Scenario.stocked) in
  run in_order Scenario.stocked = (Ok o, w') /\
  exists orderId paymentId shipmentId record payment shipment later,
    Order.id o = Some orderId /\
    World.orders w' !! orderId = Some record /\
    OrderJSON.id record = orderId /\
    OrderJSON.paymentId record = Some paymentId /\
    OrderJSON.shipmentId record = Some shipmentId /\
    World.payments w' !! paymentId = Some payment /\
    Payment.id payment = Some paymentId /\
    World.shipments w' !! shipmentId = Some shipment /\
    Shipment.id shipment = Some shipmentId /\
    OrderJSON.status record = "Pending" /\
    OrderJSON.cancellation record = false /\
    World.writes w' =
      (World.writes Scenario.stocked
         ++ [WShipment shipmentId; WPayment paymentId; WOrder orderId] ++ later)%list.
Proof.
  split; [vm_compute; reflexivity|].
  apply (checkout_persists_order Scenario.now Scenario.createShipmentObject in_order
           Scenario.stocked (snd (run in_order Scenario.stocked))
           Scenario.card Scenario.delivery (returned (run in_order Scenario.stocked))).
  vm_compute; reflexivity.
Defined.

Lemma scenario_fits (lines : list Item.t) (stock : gmap string Z) :
  forallb (fun item =>
             (Item.quantity item <=? Catalogue.getItemQuantity stock (Item.product item))%Z)
          lines = true ->
  forall item, In item lines ->
    (Item.quantity item <= Catalogue.getItemQuantity stock (Item.product item))%Z.
Proof.
  intros Hall item Hin. rewrite forallb_forall in Hall. apply Z.leb_le. by apply Hall.
Defined.

(** C10, at the haunted scenario. *)
Lemma checkout_unresolved_product_witness :
  let lines := [Item.mk Scenario.anvil 2; Item.mk Scenario.ghost 1] in
  exists item w',
    In item lines /\
    World.products Scenario.haunted !! Product.id (Item.product item) = None /\
    run in_order Scenario.haunted
      = (Throw (Error ("Product not found: " ++ Product.id (Item.product item))), w') /\
    (exists shipmentId paymentId orderId shipment payment record,
        World.shipments w' !! shipmentId = Some shipment /\
        World.payments w' !! paymentId = Some payment /\
        World.orders w' !! orderId = Some record /\
        OrderJSON.paymentId record = Some paymentId /\
        OrderJSON.shipmentId record = Some shipmentId /\
        World.writes w' =
          (World.writes Scenario.haunted
             ++ [WShipment shipmentId; WPayment paymentId; WOrder orderId])%list) /\
    World.catalogue w' = World.catalogue Scenario.haunted /\
    World.carts w' = World.carts Scenario.haunted.
Proof.
  apply (checkout_unresolved_product Scenario.now Scenario.createShipmentObject in_order
           Scenario.haunted Scenario.card Scenario.delivery Scenario.user
           (Scenario.cart [Item.mk Scenario.anvil 2; Item.mk Scenario.ghost 1])).
  - apply scenario_ready.
  - discriminate.
  - apply scenario_fits. reflexivity.
  - exists (Item.mk Scenario.ghost 1). split; [right; by left|reflexivity].
Defined.


Lemma in_order_fair : fair in_order.
Proof. intros calls. apply Permutation_refl. Defined.

(** C3 as worded fails at the doubled scenario: of 5 anvils, with lines of
    3 and of 4, 1 is left, not 2. *)
Lemma every_line_decremented_fails :
  ~ every_line_decremented Scenario.now Scenario.createShipmentObject in_order
      Scenario.doubled Scenario.card Scenario.delivery (Scenario.cart Scenario.twice).
Proof.
  intros H.
  specialize (H (returned (run in_order Scenario.doubled)) (snd (run in_order Scenario.doubled))).
  assert (run in_order Scenario.doubled
          = (Ok (returned (run in_order Scenario.doubled)), snd (run in_order Scenario.doubled)))
    as Hrun by (vm_compute; reflexivity).
  specialize (H Hrun (Item.mk Scenario.anvil 3) (or_introl eq_refl)).
  vm_compute in H. discriminate.
Qed.

(** C3, amended, at the stocked scenario. *)
Lemma checkout_decrements_stock_witness :
  let o := returned (run in_order Scenario.stocked) in
  let w' := snd (run in_order Scenario.stocked) in
  fair in_order /\
  run in_order Scenario.stocked = (Ok o, w') /\
  (exists calls shipmentId paymentId orderId,
      Permutation (map (decrement (World.catalogue Scenario.stocked)) Scenario.lines) calls /\
      World.writes w' =
        (World.writes Scenario.stocked ++ [WShipment shipmentId; WPayment paymentId; WOrder orderId]
           ++ map stockWrite calls ++ [WCart (User.cart Scenario.user)])%list) /\
  (forall before item after,
      Scenario.lines = (before ++ item :: after)%list ->
      (forall other, In other (before ++ after)%list ->
         Product.id (Item.product other) <> Product.id (Item.product item)) ->
      Catalogue.getItemQuantity (World.catalogue w') (Item.product item)
      = (Catalogue.getItemQuantity (World.catalogue Scenario.stocked) (Item.product item)
         - Item.quantity item)%Z).
Proof.
  split; [apply in_order_fair|]. split; [vm_compute; reflexivity|].
  apply (checkout_decrements_stock Scenario.now Scenario.createShipmentObject in_order
           Scenario.stocked _ Scenario.card Scenario.delivery Scenario.user
           (Scenario.cart Scenario.lines) (returned (run in_order Scenario.stocked))).
  - apply in_order_fair.
  - apply scenario_ready.
  - vm_compute; reflexivity.
Defined.

(** C4, at the doubled scenario: lines of 3 and of 4 anvils against 5. *)
Lemma checkout_same_product_lines_witness :
  let w := Scenario.doubled in
  exists o w',
    run in_order w = (Ok o, w') /\
    forall item, In item Scenario.twice ->
      (exists winner before after,
          in_order (map (decrement (World.catalogue w)) Scenario.twice)
            = (before ++ decrement (World.catalogue w) winner :: after)%list /\
          In winner Scenario.twice /\
          Product.id (Item.product winner) = Product.id (Item.product item) /\
          (forall call, In call after ->
             Product.id (fst call) <> Product.id (Item.product item)) /\
          Catalogue.getItemQuantity (World.catalogue w') (Item.product item)
          = (Catalogue.getItemQuantity (World.catalogue w) (Item.product item)
             - Item.quantity winner)%Z) /\
      ((forall other, In other Scenario.twice -> (0 < Item.quantity other)%Z) ->
       (exists l1 a l2 b l3,
           Scenario.twice = (l1 ++ a :: l2 ++ b :: l3)%list /\
           Product.id (Item.product a) = Product.id (Item.product item) /\
           Product.id (Item.product b) = Product.id (Item.product item)) ->
       Catalogue.getItemQuantity (World.catalogue w') (Item.product item)
       <> (Catalogue.getItemQuantity (World.catalogue w) (Item.product item)
           - requested (Product.id (Item.product item)) Scenario.twice)%Z).
Proof.
  apply (checkout_same_product_lines Scenario.now Scenario.createShipmentObject in_order
           Scenario.doubled Scenario.card Scenario.delivery Scenario.user
           (Scenario.cart Scenario.twice)).
  - apply in_order_fair.
  - apply scenario_ready.
  - discriminate.
  - apply scenario_fits. reflexivity.
  - intros item [<-|[<-|[]]]; by eexists.
Defined.

(** The doubled scenario, run: the lines ask for 7 of 5 anvils, checkout
    succeeds, and the stock left is 1 or 2 with the order of completion. *)
Example doubled_scenario :
  requested "prod-A" Scenario.twice = 7%Z /\
  World.catalogue (snd (run in_order Scenario.doubled)) !! "prod-A" = Some 1%Z /\
  World.catalogue (snd (run reversed Scenario.doubled)) !! "prod-A" = Some 2%Z.
Proof. vm_compute. by repeat split. Qed.

(** The receipt charges the new price: 2 anvils at 12 and a bolt at 5. *)
Example repriced_scenario :
  OrderController.getOrderById "2" repriced = (Ok (Some rehydrated), repriced) /\
  World.orders repriced !! "2" = Some (storedOrder Scenario.now Scenario.user
                                         (Scenario.cart Scenario.lines) Scenario.stocked) /\
  OrderController.parseOrderJSON
    (storedOrder Scenario.now Scenario.user (Scenario.cart Scenario.lines) Scenario.stocked)
    repriced = (Ok rehydrated, repriced) /\
  map ReceiptItem.price (Receipt.items issued) = [24; 5]%Z /\
  Receipt.total issued = 29%Z.
Proof. vm_compute. by repeat split. Qed.

(** C6, at the repriced scenario. *)
Lemma generateReceipt_prices_witness :
  OrderController.generateReceipt rehydrated repriced = (Ok issued, repriced) /\
  repriced = repriced /\
  Receipt.total issued = Order.getTotalPrice rehydrated /\
  Receipt.items issued = map receiptLine (Order.items rehydrated) /\
  (forall record,
     OrderController.parseOrderJSON record repriced = (Ok rehydrated, repriced) ->
     Forall2 (fun j line =>
                exists p, World.products repriced !! ItemJSON.productId j = Some p /\
                          ReceiptItem.quantity line = ItemJSON.quantity j /\
                          ReceiptItem.price line = (Product.price p * ItemJSON.quantity j)%Z)
             (OrderJSON.items record) (Receipt.items issued)).
Proof.
  split; [vm_compute; reflexivity|].
  apply (generateReceipt_prices rehydrated repriced repriced issued).
  vm_compute; reflexivity.
Defined.

(** C5 at the stocked scenario: the returned order passes [verify], an
    order without lines does not, and the latter is reported before the
    user is looked up. *)
Example generateReceipt_scenario :
  Order.verify (returned (run in_order Scenario.stocked)) = true /\
  OrderController.generateReceipt (Order.new "nobody" Scenario.now) Scenario.stocked
    = (Throw InvalidOrder, Scenario.stocked) /\
  fst (OrderController.generateReceipt
         (Order.setPayment
            (Order.setShipment
               (Order.addItem (Order.new "nobody" Scenario.now) Scenario.anvil 1)
               (Scenario.createShipmentObject Scenario.delivery))
            (PaymentController.createPaymentObject Scenario.card))
         Scenario.stocked)
    = Throw (UserNotFound "nobody").
Proof. vm_compute. by repeat split. Qed.

(** ** More on checkout: the checks *)

Section MoreChecks.

Variable now : string.
Variable createShipmentObject : JointShipment.t -> Shipment.t.

Abbreviation checkout := (OrderController.checkout now createShipmentObject).


(** X1. Without a logged-in user (none, or the empty string) checkout
    throws "User not logged in" and writes nothing, whatever the details,
    the cart and the stock are. *)
Theorem checkout_unauthenticated (sched : Schedule) (w : World.t)
    (paymentDetails : JointPayment.t) (shipmentDetails : JointShipment.t) :
  World.loggedInUser w = None \/ World.loggedInUser w = Some "" ->
  checkout sched paymentDetails shipmentDetails w = (Throw (Error "User not logged in"), w).
Proof.
  intros Hs. unfold OrderController.checkout, bind at 1, gets at 1. simpl.
  by destruct Hs as [-> | ->].
Qed.

(** X2. With a user logged in, a payment type or a shipment type that is
    absent or empty makes checkout throw "Payment and shipment type must
    be provided" without a write; the test comes before the account and
    the cart are looked up, so it does not matter whether they exist. *)
Theorem checkout_missing_type (sched : Schedule) (w : World.t)
    (paymentDetails : JointPayment.t) (shipmentDetails : JointShipment.t) :
  truthy (World.loggedInUser w) = true ->
  truthy (JointPayment.type paymentDetails) = false \/
  truthy (JointShipment.type shipmentDetails) = false ->
  checkout sched paymentDetails shipmentDetails w
  = (Throw (Error "Payment and shipment type must be provided"), w).
Proof.
  intros Hs Ht. unfold OrderController.checkout, bind at 1, gets at 1. simpl.
  rewrite Hs. simpl. destruct Ht as [-> | ->]; [done|].
  by destruct (truthy (JointPayment.type paymentDetails)).
Qed.

(** X3. checkout does not test the account it looks up: with a session
    and both types in place, a logged-in user the account store does not
    hold makes it fail with the engine's TypeError, not with an error of
    its own, and without a write. *)
Theorem checkout_unresolved_account (sched : Schedule) (w : World.t)
    (paymentDetails : JointPayment.t) (shipmentDetails : JointShipment.t) (userId : string) :
  World.loggedInUser w = Some userId -> userId <> "" ->
  truthy (JointPayment.type paymentDetails) = true ->
  truthy (JointShipment.type shipmentDetails) = true ->
  World.accounts w !! userId = None ->
  checkout sched paymentDetails shipmentDetails w = (Throw TypeError, w).
Proof.
  intros Hs Hne Hp Hsh Hu. unfold OrderController.checkout, bind at 1, gets at 1. simpl.
  rewrite Hs, Hp, Hsh. simpl.
  destruct (String.eqb_spec userId "") as [|_]; [done|]. simpl.
  unfold bind at 1, AccountController.getAccount, gets at 1. simpl. by rewrite Hu.
Qed.



End MoreChecks.

(** ** More on checkout: what a successful run leaves behind *)

Lemma Forall2_map_left {A B C : Type} (f : A -> B) (P : B -> C -> Prop)
    (l : list A) (k : list C) :
  Forall2 P (map f l) k -> Forall2 (fun x y => P (f x) y) l k.
Proof.
  revert k. induction l as [|x l IH]; intros k H; inversion H; subst; constructor; auto.
Qed.

(** Emptying by identifier commutes with the lookup of a user's cart. *)
Lemma find_clear (cartId : option string) (userId : string) (carts : list Cart.t) :
  List.find (fun c => String.eqb (Cart.userId c) userId) (map (CartController.clear cartId) carts)
  = CartController.clear cartId
      <$> List.find (fun c => String.eqb (Cart.userId c) userId) carts.
Proof.
  induction carts as [|c carts IH]; simpl; [done|].
  assert (Cart.userId (CartController.clear cartId c) = Cart.userId c) as ->.
  { unfold CartController.clear. by case_bool_decide. }
  by destruct (String.eqb (Cart.userId c) userId).
Qed.

Section MoreRuns.

Variable now : string.
Variable createShipmentObject : JointShipment.t -> Shipment.t.

Abbreviation checkout := (OrderController.checkout now createShipmentObject).

(** X6. The order checkout returns belongs to the logged-in user, is
    pending and not cancelled, and has the lines of the cart in the order
    of the cart: each with the quantity of the cart line and with the
    product the product store holds under the identifier of the cart
    line's product. The record left in the order store under the order's
    identifier holds the user and, per line, product identifier and
    quantity. *)
Theorem checkout_returned_order (sched : Schedule) (w w' : World.t)
    (paymentDetails : JointPayment.t) (shipmentDetails : JointShipment.t)
    (user : User.t) (cart : Cart.t) (o : Order.t) :
  ready w paymentDetails shipmentDetails user cart ->
  checkout sched paymentDetails shipmentDetails w = (Ok o, w') ->
  Order.userId o = User.id user /\
  Order.status o = "Pending" /\
  Order.cancellation o = false /\
  Forall2 (fun item line =>
             World.products w !! Product.id (Item.product item) = Some (Item.product line) /\
             Item.quantity line = Item.quantity item)
          (Cart.items cart) (Order.items o) /\
  exists orderId record,
    Order.id o = Some orderId /\
    World.orders w' !! orderId = Some record /\
    OrderJSON.userId record = User.id user /\
    OrderJSON.items record = map toJSON (Cart.items cart).
Proof.
  intros Hr Hrun.
  destruct (checkout_ok_run _ _ _ _ _ _ _ _ _ _ Hr Hrun) as (lines & Hl & -> & ->).
  simpl. repeat split.
  - apply hydrate_lines in Hl. by apply Forall2_map_left in Hl.
  - exists (orderId w), (storedOrder now user cart w). simpl.
    repeat split. apply lookup_insert_eq.
Qed.

(** X7. When the cart checkout read is the one the user record refers
    to, a successful checkout leaves that cart without lines, and a further
    checkout in the world it leaves, with any details that carry both
    types, throws "Cart is empty" and writes nothing. *)
Theorem checkout_empties_cart (sched : Schedule) (w w' : World.t)
    (paymentDetails : JointPayment.t) (shipmentDetails : JointShipment.t)
    (user : User.t) (cart : Cart.t) (o : Order.t) :
  ready w paymentDetails shipmentDetails user cart ->
  checkout sched paymentDetails shipmentDetails w = (Ok o, w') ->
  User.cart user = Some (Cart.id cart) ->
  CartController.getCart (User.id user) w'
    = (Ok (Some (Cart.mk (Cart.id cart) (Cart.userId cart) [])), w') /\
  forall sched' paymentDetails' shipmentDetails',
    truthy (JointPayment.type paymentDetails') = true ->
    truthy (JointShipment.type shipmentDetails') = true ->
    checkout sched' paymentDetails' shipmentDetails' w' = (Throw (Error "Cart is empty"), w').
Proof.
  intros Hr Hrun Hcart.
  destruct (checkout_ok_run _ _ _ _ _ _ _ _ _ _ Hr Hrun) as (lines & _ & _ & ->).
  destruct Hr as [Hs Hp Hsh Hu Hc].
  assert (List.find (fun c => String.eqb (Cart.userId c) (User.id user))
            (map (CartController.clear (User.cart user)) (World.carts w))
          = Some (Cart.mk (Cart.id cart) (Cart.userId cart) [])) as Hfind.
  { rewrite find_clear, Hc, Hcart. simpl. unfold CartController.clear.
    by rewrite bool_decide_eq_true_2. }
  split.
  - unfold CartController.getCart, gets. simpl. by rewrite Hfind.
  - intros sched' paymentDetails' shipmentDetails' Hp' Hsh'.
    by rewrite (checkout_checks now createShipmentObject sched' _ paymentDetails' shipmentDetails'
                  user (Cart.mk (Cart.id cart) (Cart.userId cart) [])).
Qed.

(** X8. The order checkout returns can be read back: in the world the
    checkout leaves, getOrderById at the identifier of the returned order
    gives that very order, and reads only. *)
Theorem checkout_getOrderById (sched : Schedule) (w w' : World.t)
    (paymentDetails : JointPayment.t) (shipmentDetails : JointShipment.t) (o : Order.t) :
  checkout sched paymentDetails shipmentDetails w = (Ok o, w') ->
  exists orderId,
    Order.id o = Some orderId /\
    OrderController.getOrderById orderId w' = (Ok (Some o), w').
Proof.
  intros Hrun.
  destruct (checkout_ok_ready _ _ _ _ _ _ _ _ Hrun) as (user & cart & Hr & _ & _).
  destruct (checkout_ok_run _ _ _ _ _ _ _ _ _ _ Hr Hrun) as (lines & Hl & -> & ->).
  exists (orderId w). split; [done|].
  set (w' := completed now createShipmentObject
               (sched (map (decrement (World.catalogue w)) (Cart.items cart)))
               paymentDetails shipmentDetails user cart w).
  assert (World.orders w' !! orderId w = Some (storedOrder now user cart w)) as Ho
    by apply lookup_insert_eq.
  assert (World.payments w' !! paymentId w
          = Some (storedPayment now createShipmentObject paymentDetails shipmentDetails
                    user cart w)) as Hp
    by apply lookup_insert_eq.
  assert (World.shipments w' !! shipmentId w
          = Some (storedShipment createShipmentObject shipmentDetails user w)) as Hs
    by apply lookup_insert_eq.
  pose proof (hydrate_world (map toJSON (Cart.items cart)) w') as Hw.
  pose proof (hydrate_products (map toJSON (Cart.items cart)) w' w eq_refl) as Hf.
  rewrite Hl in Hf. cbn [fst] in Hf. clearbody w'.
  unfold OrderController.getOrderById, bind at 1, OrderRepository.getById, gets at 1.
  rewrite Ho.
  unfold bind at 1, OrderController.parseOrderJSON, bind at 1.
  cbn [storedOrder OrderJSON.items].
  destruct (OrderController.hydrate (map toJSON (Cart.items cart)) w') as [r w2].
  cbn [fst snd] in Hw, Hf. subst r w2.
  unfold bind at 1, PaymentController.getPaymentById, gets at 1.
  unfold bind at 1, ShipmentController.getShipmentById, gets at 1.
  unfold storedOrder. simpl. by rewrite Hp, Hs.
Qed.

(** X10. A checkout past its four checks persists the shipment the
    builder makes of the shipment details, in which, for the type
    "delivery", the address is the caller's if the caller gave a non-empty
    one and the stored address of the user otherwise; for any other type
    the details go to the builder as they came. *)
Theorem checkout_delivery_address (sched : Schedule) (w : World.t)
    (paymentDetails : JointPayment.t) (shipmentDetails : JointShipment.t)
    (user : User.t) (cart : Cart.t) :
  ready w paymentDetails shipmentDetails user cart ->
  Cart.items cart <> [] ->
  (forall item, In item (Cart.items cart) ->
     (Item.quantity item <= Catalogue.getItemQuantity (World.catalogue w) (Item.product item))%Z) ->
  World.shipments (snd (checkout sched paymentDetails shipmentDetails w)) !! shipmentId w
  = Some (stamped (shipmentId w)
            (createShipmentObject
               (JointShipment.mk
                  (JointShipment.id shipmentDetails)
                  (JointShipment.type shipmentDetails)
                  (JointShipment.fee shipmentDetails)
                  (if bool_decide (JointShipment.type shipmentDetails = Some "delivery")
                   then if truthy (JointShipment.address shipmentDetails)
                        then JointShipment.address shipmentDetails
                        else User.address user
                   else JointShipment.address shipmentDetails)))).
Proof.
  intros Hr Hne Hfit.
  rewrite (checkout_checks _ _ _ _ _ _ _ _ Hr).
  destruct (Nat.eqb (length (Cart.items cart)) 0) eqn:Hlen.
  { destruct (Cart.items cart); [done|discriminate]. }
  apply short_false in Hfit. rewrite Hfit.
  assert (World.shipments (persisted now createShipmentObject paymentDetails shipmentDetails
                             user cart w) !! shipmentId w
          = Some (storedShipment createShipmentObject shipmentDetails user w)) as Hp
    by apply lookup_insert_eq.
  assert (storedShipment createShipmentObject shipmentDetails user w
          = stamped (shipmentId w)
              (createShipmentObject
                 (JointShipment.mk
                    (JointShipment.id shipmentDetails)
                    (JointShipment.type shipmentDetails)
                    (JointShipment.fee shipmentDetails)
                    (if bool_decide (JointShipment.type shipmentDetails = Some "delivery")
                     then if truthy (JointShipment.address shipmentDetails)
                          then JointShipment.address shipmentDetails
                          else User.address user
                     else JointShipment.address shipmentDetails)))) as <-.
  { unfold storedShipment, stamped, shipmentOf, OrderController.withAddress, js_or.
    case_bool_decide; [done|]. by destruct shipmentDetails. }
  by destruct (fst (OrderController.hydrate _ w)).
Qed.

End MoreRuns.

(** ** Reading orders back *)

(** Hydration of a record, run. *)
Lemma parseOrderJSON_run (record : OrderJSON.t) (w : World.t) :
  OrderController.parseOrderJSON record w =
  match fst (OrderController.hydrate (OrderJSON.items record) w) with
  | Ok lines =>
      (Ok (Order.mk (OrderJSON.userId record) (Some (OrderJSON.id record))
             (OrderJSON.orderDate record) lines
             (match OrderJSON.paymentId record with
              | Some i => World.payments w !! i
              | None => None
              end)
             (match OrderJSON.shipmentId record with
              | Some i => World.shipments w !! i
              | None => None
              end)
             (OrderJSON.status record) (OrderJSON.cancellation record)),
       w)
  | Throw e => (Throw e, w)
  end.
Proof.
  unfold OrderController.parseOrderJSON, bind at 1.
  pose proof (hydrate_world (OrderJSON.items record) w) as Hw.
  destruct (OrderController.hydrate (OrderJSON.items record) w) as [[lines|e] w0];
    simpl in Hw; subst w0; reflexivity.
Qed.

(** Hydration of a record only reads. *)
Lemma parseOrderJSON_world (record : OrderJSON.t) (w : World.t) :
  snd (OrderController.parseOrderJSON record w) = w.
Proof.
  rewrite parseOrderJSON_run.
  by destruct (fst (OrderController.hydrate (OrderJSON.items record) w)).
Qed.


(** The two outcomes of hydrating a record. *)
Lemma parseOrderJSON_resolved (record : OrderJSON.t) (w : World.t) :
  (forall item, In item (OrderJSON.items record) ->
     is_Some (World.products w !! ItemJSON.productId item)) ->
  exists o,
    OrderController.parseOrderJSON record w = (Ok o, w) /\
    Order.id o = Some (OrderJSON.id record) /\
    Order.userId o = OrderJSON.userId record /\
    Order.status o = OrderJSON.status record /\
    Order.cancellation o = OrderJSON.cancellation record /\
    map Item.quantity (Order.items o) = map ItemJSON.quantity (OrderJSON.items record).
Proof.
  intros Hres. destruct (hydrate_resolved _ _ Hres) as (lines & Hl & Hq).
  unfold OrderController.parseOrderJSON, bind at 1. rewrite Hl.
  unfold bind, PaymentController.getPaymentById, ShipmentController.getShipmentById, gets, ret.
  simpl. eexists. by repeat split.
Qed.

Lemma parseOrderJSON_unresolved (record : OrderJSON.t) (w : World.t) :
  (exists item, In item (OrderJSON.items record) /\
     World.products w !! ItemJSON.productId item = None) ->
  exists item, In item (OrderJSON.items record) /\
    World.products w !! ItemJSON.productId item = None /\
    OrderController.parseOrderJSON record w = (Throw (ProductNotFound (ItemJSON.productId item)), w).
Proof.
  intros Hbad. destruct (hydrate_unresolved _ _ Hbad) as (item & Hin & Hnone & Hrun).
  exists item. repeat split; [done..|].
  unfold OrderController.parseOrderJSON, bind at 1. by rewrite Hrun.
Qed.

(** The fields hydration copies from the record. *)
Lemma parseOrderJSON_fields (record : OrderJSON.t) (w w' : World.t) (o : Order.t) :
  OrderController.parseOrderJSON record w = (Ok o, w') ->
  Order.userId o = OrderJSON.userId record /\ Order.id o = Some (OrderJSON.id record).
Proof.
  unfold OrderController.parseOrderJSON, bind at 1.
  destruct (OrderController.hydrate (OrderJSON.items record) w) as [[lines|e] w0]; [|done].
  unfold bind, PaymentController.getPaymentById, ShipmentController.getShipmentById, gets, ret.
  simpl. by intros [= <- _].
Qed.

(** Every line of a record resolves, or one does not. *)
Lemma resolved_or_not (items : list ItemJSON.t) (w : World.t) :
  (forall item, In item items -> is_Some (World.products w !! ItemJSON.productId item)) \/
  (exists item, In item items /\ World.products w !! ItemJSON.productId item = None).
Proof.
  induction items as [|item items [IH|(bad & Hin & Hbad)]].
  - left. intros item [].
  - destruct (World.products w !! ItemJSON.productId item) as [p|] eqn:Hp.
    + left. intros it [<-|Hin]; [by rewrite Hp|by apply IH].
    + right. exists item. by split; [left|].
  - right. exists bad. by split; [right|].
Qed.

(** getOrderById, run. *)
Lemma getOrderById_run (orderId : string) (w : World.t) :
  OrderController.getOrderById orderId w =
  match World.orders w !! orderId with
  | None => (Ok None, w)
  | Some record =>
      match fst (OrderController.parseOrderJSON record w) with
      | Ok o => (Ok (Some o), w)
      | Throw e => (Throw e, w)
      end
  end.
Proof.
  unfold OrderController.getOrderById, bind at 1, OrderRepository.getById, gets. simpl.
  destruct (World.orders w !! orderId) as [record|]; [|done].
  unfold bind. pose proof (parseOrderJSON_world record w) as Hw.
  destruct (OrderController.parseOrderJSON record w) as [[o|e] w0]; simpl in *; by subst.
Qed.

(** X9. getOrderById only reads. It returns null exactly when the order
    store has no record under the identifier. For a record it has, it
    returns the order with the record's identifier, user, status and line
    quantities if the product of every line is in the product store, and
    throws "Product not found" for a line whose product is not. *)
Theorem getOrderById_cases (orderId : string) (w : World.t) :
  snd (OrderController.getOrderById orderId w) = w /\
  (fst (OrderController.getOrderById orderId w) = Ok None <-> World.orders w !! orderId = None) /\
  (forall record, World.orders w !! orderId = Some record ->
     ((forall item, In item (OrderJSON.items record) ->
         is_Some (World.products w !! ItemJSON.productId item)) ->
      exists o,
        fst (OrderController.getOrderById orderId w) = Ok (Some o) /\
        Order.id o = Some (OrderJSON.id record) /\
        Order.userId o = OrderJSON.userId record /\
        Order.status o = OrderJSON.status record /\
        map Item.quantity (Order.items o) = map ItemJSON.quantity (OrderJSON.items record)) /\
     ((exists item, In item (OrderJSON.items record) /\
         World.products w !! ItemJSON.productId item = None) ->
      exists item,
        In item (OrderJSON.items record) /\
        World.products w !! ItemJSON.productId item = None /\
        fst (OrderController.getOrderById orderId w)
        = Throw (Error ("Product not found: " ++ ItemJSON.productId item)))).
Proof.
  rewrite getOrderById_run.
  destruct (World.orders w !! orderId) as [record|] eqn:Ho; [|by repeat split].
  split; [|split].
  - by destruct (fst (OrderController.parseOrderJSON record w)).
  - split; [|done]. by destruct (fst (OrderController.parseOrderJSON record w)).
  - intros ? [= <-]. split.
    + intros Hres. destruct (parseOrderJSON_resolved record w Hres)
        as (o & Hrun & Hid & Hu & Hst & _ & Hq).
      exists o. by rewrite Hrun.
    + intros Hbad. destruct (parseOrderJSON_unresolved record w Hbad)
        as (item & Hin & Hnone & Hrun).
      exists item. by rewrite Hrun.
Qed.

(** The sum of price times quantity is the sum of the receipt lines. *)
Lemma receiptSum_lines (items : list Item.t) :
  receiptSum (map receiptLine items)
  = foldr (fun it acc => (Product.price (Item.product it) * Item.quantity it + acc)%Z) 0%Z items.
Proof. induction items as [|item items IH]; simpl; [done|]. by rewrite IH. Qed.

(** X11. A receipt that generateReceipt returns is for a user the
    account store holds under the order's user identifier, carries the
    order's identifier, payment and shipment, of which the last two are
    set, has at least one line, and totals to the sum of the prices of
    its lines. *)
Theorem generateReceipt_receipt (order : Order.t) (w w' : World.t) (receipt : Receipt.t) :
  OrderController.generateReceipt order w = (Ok receipt, w') ->
  World.accounts w !! Order.userId order = Some (Receipt.user receipt) /\
  Receipt.orderId receipt = Order.id order /\
  Receipt.payment receipt = Order.payment order /\
  Receipt.shipment receipt = Order.shipment order /\
  is_Some (Receipt.payment receipt) /\
  is_Some (Receipt.shipment receipt) /\
  Receipt.items receipt <> [] /\
  Receipt.total receipt = receiptSum (Receipt.items receipt).
Proof.
  unfold OrderController.generateReceipt, bind, AccountController.getAccount, gets, throw, ret.
  destruct (Order.verify order) eqn:Hv; simpl; [|done].
  destruct (World.accounts w !! Order.userId order) as [user|]; simpl; [|done].
  intros [= <- <-]. simpl. apply verify_spec in Hv as (Hne & Hp & Hs).
  repeat split; try done.
  - by destruct (Order.items order).
  - fold receiptLine. by rewrite receiptSum_lines.
Qed.

(** ** Orders of a user, receipts of fresh orders, deletion *)

Lemma parseAll_world (records : list OrderJSON.t) (w : World.t) :
  snd (OrderController.parseAll records w) = w.
Proof.
  induction records as [|record records IH]; simpl; [done|].
  unfold bind at 1. rewrite parseOrderJSON_run.
  destruct (fst (OrderController.hydrate (OrderJSON.items record) w)); [|done].
  unfold bind. destruct (OrderController.parseAll records w) as [[os|e] w0]; simpl in *; by subst.
Qed.

(** A listing that succeeds has hydrated every record, in order. *)
Lemma parseAll_ok (records : list OrderJSON.t) (w w' : World.t) (orders : list Order.t) :
  OrderController.parseAll records w = (Ok orders, w') ->
  Forall2 (fun record o => OrderController.parseOrderJSON record w = (Ok o, w)) records orders.
Proof.
  revert orders w'. induction records as [|record records IH]; intros orders w'; simpl.
  - intros [= <- _]. constructor.
  - unfold bind at 1.
    pose proof (parseOrderJSON_world record w) as Hw.
    destruct (OrderController.parseOrderJSON record w) as [[o|e] w0] eqn:Hp; simpl in Hw;
      subst w0; [|done].
    unfold bind. destruct (OrderController.parseAll records w) as [[os|e] w0] eqn:E; [|done].
    intros [= <- _]. constructor; [done|]. by eapply IH.
Qed.

(** A record with an unresolved line makes the listing throw. *)
Lemma parseAll_unresolved (records : list OrderJSON.t) (w : World.t) :
  (exists record item, In record records /\ In item (OrderJSON.items record) /\
     World.products w !! ItemJSON.productId item = None) ->
  exists productId,
    World.products w !! productId = None /\
    OrderController.parseAll records w = (Throw (ProductNotFound productId), w).
Proof.
  induction records as [|record records IH]; intros (bad & item & Hin & Hitem & Hnone);
    [by destruct Hin|].
  simpl. unfold bind at 1.
  destruct (resolved_or_not (OrderJSON.items record) w) as [Hres|Hbad].
  - destruct (parseOrderJSON_resolved record w Hres) as (o & -> & _).
    destruct Hin as [->|Hin].
    { destruct (Hres item Hitem) as [p Hp]. congruence. }
    destruct IH as (productId & Hp & Hrun); [by exists bad, item|].
    exists productId. unfold bind. by rewrite Hrun.
  - destruct (parseOrderJSON_unresolved record w Hbad) as (it & _ & Hp & ->).
    by exists (ItemJSON.productId it).
Qed.

(** The records the store lists for a user are its records of that user. *)
Lemma getByUserId_spec (userId : string) (w : World.t) (record : OrderJSON.t) :
  In record (List.filter (fun record => String.eqb (OrderJSON.userId record) userId)
               (map snd (map_to_list (World.orders w)))) <->
  (exists key, World.orders w !! key = Some record) /\ OrderJSON.userId record = userId.
Proof.
  rewrite filter_In, String.eqb_eq, in_map_iff. split.
  - intros [([key r] & <- & Hin) Hu]. split; [|done]. exists key.
    apply list_elem_of_In in Hin. by apply elem_of_map_to_list in Hin.
  - intros [(key & Hkey) Hu]. split; [|done]. exists (key, record). split; [done|].
    apply list_elem_of_In. by apply elem_of_map_to_list.
Qed.

(** X13. getOrdersByUser only reads. When it returns, every order it
    returns is the hydration of a record the order store holds for that
    user, so it carries the user's identifier, and every record the store
    holds for the user has its hydration among the orders returned. *)
Theorem getOrdersByUser_lists (userId : string) (w : World.t) :
  snd (OrderController.getOrdersByUser userId w) = w /\
  forall orders,
    fst (OrderController.getOrdersByUser userId w) = Ok orders ->
    (forall o, In o orders ->
       Order.userId o = userId /\
       exists key record,
         World.orders w !! key = Some record /\
         OrderController.parseOrderJSON record w = (Ok o, w)) /\
    (forall key record,
       World.orders w !! key = Some record -> OrderJSON.userId record = userId ->
       exists o, In o orders /\ OrderController.parseOrderJSON record w = (Ok o, w)).
Proof.
  unfold OrderController.getOrdersByUser, bind, OrderRepository.getByUserId, gets. simpl.
  set (records := List.filter _ _).
  pose proof (parseAll_world records w) as Hw.
  destruct (OrderController.parseAll records w) as [[os|e] w0] eqn:E; simpl in Hw; subst w0;
    simpl; (split; [done|]); [|done].
  intros orders [= <-]. apply parseAll_ok in E. split.
  - intros o Hin.
    assert (exists record, In record records /\
              OrderController.parseOrderJSON record w = (Ok o, w)) as (record & Hrec & Hrun).
    { clear -E Hin. induction E as [|r o' rs os' Hr _ IH]; [done|].
      destruct Hin as [<-|Hin]; [exists r; by split; [left|]|].
      destruct (IH Hin) as (record & ? & ?). exists record. by split; [right|]. }
    apply getByUserId_spec in Hrec as [(key & Hkey) Hu].
    split; [|by exists key, record].
    apply parseOrderJSON_fields in Hrun as [-> _]. done.
  - intros key record Hkey Hu.
    assert (In record records) as Hrec by (apply getByUserId_spec; eauto).
    clear -E Hrec. induction E as [|r o' rs os' Hr _ IH]; [done|].
    destruct Hrec as [<-|Hrec]; [exists o'; by split; [left|]|].
    destruct (IH Hrec) as (o & ? & ?). exists o. by split; [right|].
Qed.

(** X15. One unreadable order hides them all: when the order store
    holds, for a user, a record with a line whose product is not in the
    product store, getOrdersByUser for that user throws "Product not
    found" and returns none of the user's orders. *)
Theorem getOrdersByUser_unresolved (userId key : string) (w : World.t)
    (record : OrderJSON.t) (item : ItemJSON.t) :
  World.orders w !! key = Some record ->
  OrderJSON.userId record = userId ->
  In item (OrderJSON.items record) ->
  World.products w !! ItemJSON.productId item = None ->
  exists productId,
    World.products w !! productId = None /\
    OrderController.getOrdersByUser userId w
    = (Throw (Error ("Product not found: " ++ productId)), w).
Proof.
  intros Hkey Hu Hin Hnone.
  unfold OrderController.getOrdersByUser, bind, OrderRepository.getByUserId, gets. simpl.
  set (records := List.filter _ _).
  destruct (parseAll_unresolved records w) as (productId & Hp & Hrun).
  { exists record, item. split; [|done]. apply getByUserId_spec. eauto. }
  exists productId. by rewrite Hrun.
Qed.


Section Afterwards.

Variable now : string.
Variable createShipmentObject : JointShipment.t -> Shipment.t.

Abbreviation checkout := (OrderController.checkout now createShipmentObject).

(** In the world a completed checkout leaves, the record of its order
    hydrates to the order it returned. *)
Lemma completed_parse (calls : list (Product.t * Z)) (w : World.t)
    (paymentDetails : JointPayment.t) (shipmentDetails : JointShipment.t)
    (user : User.t) (cart : Cart.t) (lines : list Item.t) :
  OrderController.hydrate (map toJSON (Cart.items cart)) w = (Ok lines, w) ->
  let w' := completed now createShipmentObject calls paymentDetails shipmentDetails user cart w in
  OrderController.parseOrderJSON (storedOrder now user cart w) w'
  = (Ok (Order.mk (User.id user) (Some (orderId w)) now lines
           (Some (storedPayment now createShipmentObject paymentDetails shipmentDetails
                    user cart w))
           (Some (storedShipment createShipmentObject shipmentDetails user w))
           "Pending" false),
     w').
Proof.
  intros Hl w'.
  assert (World.payments w' !! paymentId w
          = Some (storedPayment now createShipmentObject paymentDetails shipmentDetails
                    user cart w)) as Hp
    by apply lookup_insert_eq.
  assert (World.shipments w' !! shipmentId w
          = Some (storedShipment createShipmentObject shipmentDetails user w)) as Hs
    by apply lookup_insert_eq.
  pose proof (hydrate_products (map toJSON (Cart.items cart)) w' w eq_refl) as Hf.
  rewrite Hl in Hf. clearbody w'.
  rewrite parseOrderJSON_run. unfold storedOrder at 1. cbn [OrderJSON.items].
  rewrite Hf. simpl. by rewrite Hp, Hs.
Qed.



(** X14. After a checkout that returned an order, a listing of the
    orders of the logged-in user that succeeds contains that order. *)
Theorem checkout_getOrdersByUser (sched : Schedule) (w w' : World.t)
    (paymentDetails : JointPayment.t) (shipmentDetails : JointShipment.t)
    (user : User.t) (cart : Cart.t) (o : Order.t) (orders : list Order.t) :
  ready w paymentDetails shipmentDetails user cart ->
  checkout sched paymentDetails shipmentDetails w = (Ok o, w') ->
  fst (OrderController.getOrdersByUser (User.id user) w') = Ok orders ->
  In o orders.
Proof.
  intros Hr Hrun Hlist.
  destruct (checkout_ok_run _ _ _ _ _ _ _ _ _ _ Hr Hrun) as (lines & Hl & -> & ->).
  pose proof (completed_parse
                (sched (map (decrement (World.catalogue w)) (Cart.items cart)))
                w paymentDetails shipmentDetails user cart lines Hl) as Hparse.
  simpl in Hparse.
  set (w' := completed now createShipmentObject
               (sched (map (decrement (World.catalogue w)) (Cart.items cart)))
               paymentDetails shipmentDetails user cart w) in *.
  assert (World.orders w' !! orderId w = Some (storedOrder now user cart w)) as Ho
    by apply lookup_insert_eq.
  clearbody w'.
  revert Hlist. unfold OrderController.getOrdersByUser, bind, OrderRepository.getByUserId, gets.
  simpl. set (records := List.filter _ _).
  destruct (OrderController.parseAll records w') as [[os|e] w0] eqn:E; simpl; [|done].
  intros [= ->]. apply parseAll_ok in E.
  assert (In (storedOrder now user cart w) records) as Hrec.
  { apply getByUserId_spec. split; [by exists (orderId w)|done]. }
  clear -E Hrec Hparse. induction E as [|r o' rs os' Hrun _ IH]; [done|].
  destruct Hrec as [->|Hrec]; [left; congruence|right; by apply IH].
Qed.

End Afterwards.

(** ** The further properties at the scenarios *)

(** X1, with nobody logged in. *)
Lemma checkout_unauthenticated_witness :
  (World.loggedInUser anonymous = None \/ World.loggedInUser anonymous = Some "") /\
  run in_order anonymous = (Throw (Error "User not logged in"), anonymous).
Proof.
  split; [by left|].
  apply (checkout_unauthenticated Scenario.now Scenario.createShipmentObject in_order anonymous
           Scenario.card Scenario.delivery).
  by left.
Defined.

(** X2, with payment details that carry no type. *)
Lemma checkout_missing_type_witness :
  truthy (World.loggedInUser Scenario.stocked) = true /\
  (truthy (JointPayment.type untyped) = false \/
   truthy (JointShipment.type Scenario.delivery) = false) /\
  OrderController.checkout Scenario.now Scenario.createShipmentObject in_order
    untyped Scenario.delivery Scenario.stocked
  = (Throw (Error "Payment and shipment type must be provided"), Scenario.stocked).
Proof.
  split; [reflexivity|]. split; [by left|].
  apply (checkout_missing_type Scenario.now Scenario.createShipmentObject in_order
           Scenario.stocked untyped Scenario.delivery); [reflexivity|by left].
Defined.

(** X3, with a session for a user without an account. *)
Lemma checkout_unresolved_account_witness :
  World.loggedInUser dangling = Some "u9" /\
  World.accounts dangling !! "u9" = None /\
  run in_order dangling = (Throw TypeError, dangling).
Proof.
  split; [reflexivity|]. split; [reflexivity|].
  apply (checkout_unresolved_account Scenario.now Scenario.createShipmentObject in_order dangling
           Scenario.card Scenario.delivery "u9"); (reflexivity || discriminate).
Defined.


(** X6, at the stocked scenario. *)
Lemma checkout_returned_order_witness :
  let o := returned (run in_order Scenario.stocked) in
  run in_order Scenario.stocked = (Ok o, placed) /\
  Order.userId o = User.id Scenario.user /\
  Order.status o = "Pending" /\
  Order.cancellation o = false /\
  Forall2 (fun item line =>
             World.products Scenario.stocked !! Product.id (Item.product item)
               = Some (Item.product line) /\
             Item.quantity line = Item.quantity item)
          Scenario.lines (Order.items o) /\
  exists orderId record,
    Order.id o = Some orderId /\
    World.orders placed !! orderId = Some record /\
    OrderJSON.userId record = User.id Scenario.user /\
    OrderJSON.items record = map toJSON Scenario.lines.
Proof.
  split; [vm_compute; reflexivity|].
  apply (checkout_returned_order Scenario.now Scenario.createShipmentObject in_order
           Scenario.stocked placed Scenario.card Scenario.delivery Scenario.user
           (Scenario.cart Scenario.lines) (returned (run in_order Scenario.stocked))).
  - apply scenario_ready.
  - vm_compute; reflexivity.
Defined.

(** X7, at the stocked scenario. *)
Lemma checkout_empties_cart_witness :
  run in_order Scenario.stocked = (Ok (returned (run in_order Scenario.stocked)), placed) /\
  User.cart Scenario.user = Some (Cart.id (Scenario.cart Scenario.lines)) /\
  CartController.getCart (User.id Scenario.user) placed
    = (Ok (Some (Cart.mk "cart-1" "u1" [])), placed) /\
  forall sched' paymentDetails' shipmentDetails',
    truthy (JointPayment.type paymentDetails') = true ->
    truthy (JointShipment.type shipmentDetails') = true ->
    OrderController.checkout Scenario.now Scenario.createShipmentObject sched'
      paymentDetails' shipmentDetails' placed
    = (Throw (Error "Cart is empty"), placed).
Proof.
  split; [vm_compute; reflexivity|]. split; [reflexivity|].
  apply (checkout_empties_cart Scenario.now Scenario.createShipmentObject in_order
           Scenario.stocked placed Scenario.card Scenario.delivery Scenario.user
           (Scenario.cart Scenario.lines) (returned (run in_order Scenario.stocked))).
  - apply scenario_ready.
  - vm_compute; reflexivity.
  - reflexivity.
Defined.

(** X8, at the stocked scenario. *)
Lemma checkout_getOrderById_witness :
  let o := returned (run in_order Scenario.stocked) in
  run in_order Scenario.stocked = (Ok o, placed) /\
  exists orderId,
    Order.id o = Some orderId /\
    OrderController.getOrderById orderId placed = (Ok (Some o), placed).
Proof.
  split; [vm_compute; reflexivity|].
  apply (checkout_getOrderById Scenario.now Scenario.createShipmentObject in_order
           Scenario.stocked placed Scenario.card Scenario.delivery
           (returned (run in_order Scenario.stocked))).
  vm_compute; reflexivity.
Defined.

(** X10, at the stocked scenario: a delivery without an address goes to
    the address of the user. *)
Lemma checkout_delivery_address_witness :
  World.shipments placed !! shipmentId Scenario.stocked
  = Some (stamped (shipmentId Scenario.stocked)
            (Scenario.createShipmentObject
               (JointShipment.mk
                  (JointShipment.id Scenario.delivery)
                  (JointShipment.type Scenario.delivery)
                  (JointShipment.fee Scenario.delivery)
                  (if bool_decide (JointShipment.type Scenario.delivery = Some "delivery")
                   then if truthy (JointShipment.address Scenario.delivery)
                        then JointShipment.address Scenario.delivery
                        else User.address Scenario.user
                   else JointShipment.address Scenario.delivery)))).
Proof.
  apply (checkout_delivery_address Scenario.now Scenario.createShipmentObject in_order
           Scenario.stocked Scenario.card Scenario.delivery Scenario.user
           (Scenario.cart Scenario.lines)).
  - apply scenario_ready.
  - discriminate.
  - apply scenario_fits. reflexivity.
Defined.

(** The address of the caller wins over the stored one, and a pickup gets
    none. *)
Example delivery_address_scenario :
  Shipment.address <$>
    World.shipments
      (snd (OrderController.checkout Scenario.now Scenario.createShipmentObject in_order
              Scenario.card addressed Scenario.stocked)) !! "0"
  = Some (Some "7 Side Rd") /\
  Shipment.address <$> World.shipments placed !! "0" = Some (Some "1 Main St") /\
  Shipment.address <$>
    World.shipments
      (snd (OrderController.checkout Scenario.now Scenario.createShipmentObject in_order
              Scenario.card pickup Scenario.stocked)) !! "0"
  = Some None.
Proof. vm_compute. by repeat split. Qed.

(** X11, at the repriced scenario. *)
Lemma generateReceipt_receipt_witness :
  OrderController.generateReceipt rehydrated repriced = (Ok issued, repriced) /\
  World.accounts repriced !! Order.userId rehydrated = Some (Receipt.user issued) /\
  Receipt.orderId issued = Order.id rehydrated /\
  Receipt.payment issued = Order.payment rehydrated /\
  Receipt.shipment issued = Order.shipment rehydrated /\
  is_Some (Receipt.payment issued) /\
  is_Some (Receipt.shipment issued) /\
  Receipt.items issued <> [] /\
  Receipt.total issued = receiptSum (Receipt.items issued).
Proof.
  split; [vm_compute; reflexivity|].
  apply (generateReceipt_receipt rehydrated repriced repriced issued).
  vm_compute; reflexivity.
Defined.


(** X14, at the stocked scenario. *)
Lemma checkout_getOrdersByUser_witness :
  let o := returned (run in_order Scenario.stocked) in
  run in_order Scenario.stocked = (Ok o, placed) /\
  fst (OrderController.getOrdersByUser (User.id Scenario.user) placed) = Ok listed /\
  In o listed.
Proof.
  split; [vm_compute; reflexivity|]. split; [vm_compute; reflexivity|].
  apply (checkout_getOrdersByUser Scenario.now Scenario.createShipmentObject in_order
           Scenario.stocked placed Scenario.card Scenario.delivery Scenario.user
           (Scenario.cart Scenario.lines) (returned (run in_order Scenario.stocked)) listed).
  - apply scenario_ready.
  - vm_compute; reflexivity.
  - vm_compute; reflexivity.
Defined.

(** X15, at the orphaned scenario: the one order of the user has a line
    for the anvil, which is gone. *)
Lemma getOrdersByUser_unresolved_witness :
  let record := storedOrder Scenario.now Scenario.user (Scenario.cart Scenario.lines)
                  Scenario.stocked in
  World.orders orphaned !! "2" = Some record /\
  OrderJSON.userId record = "u1" /\
  In (ItemJSON.mk "prod-A" 2) (OrderJSON.items record) /\
  World.products orphaned !! "prod-A" = None /\
  exists productId,
    World.products orphaned !! productId = None /\
    OrderController.getOrdersByUser "u1" orphaned
    = (Throw (Error ("Product not found: " ++ productId)), orphaned).
Proof.
  split; [vm_compute; reflexivity|]. split; [reflexivity|]. split; [by left|].
  split; [reflexivity|].
  apply (getOrdersByUser_unresolved "u1" "2" orphaned
           (storedOrder Scenario.now Scenario.user (Scenario.cart Scenario.lines)
              Scenario.stocked)
           (ItemJSON.mk "prod-A" 2)).
  - vm_compute; reflexivity.
  - reflexivity.
  - by left.
  - reflexivity.
Defined.

(** The deleted order at the stocked scenario: gone from the order store,
    its payment and shipment still stored, the stock still lowered. *)
Example deleteOrder_scenario :
  let w' := snd (OrderController.deleteOrder "2" placed) in
  fst (OrderController.getOrderById "2" w') = Ok None /\
  Payment.amount <$> World.payments w' !! "1" = Some 28%Z /\
  Shipment.fee <$> World.shipments w' !! "0" = Some 3%Z /\
  World.catalogue w' !! "prod-A" = Some 3%Z.
Proof. vm_compute. by repeat split. Qed.
